(** * RolesPage.component.tsx: the Roles administration page

    A shallow embedding of the page controller
    [openmetadata-ui/.../pages/RolesPage/RolesPage.component.tsx].

    - The component's [useState] cells are the fields of one record,
      [PageState].
    - A handler is a function in a small state-and-log monad: it changes the
      state cells through the setters and logs the toasts it shows and the
      REST calls it issues.
    - A promise chain [call(..).then(..).catch(..).finally(..)] is split in
      two handlers: the part that runs when the user acts (it ends by logging
      the call) and the part that runs when the call settles, which takes the
      outcome ([Resolved] or [Rejected]) as an argument.
    - Strings are Rocq strings.  What JavaScript computes on the characters
      of a string is taken from outside: [String.prototype.trim], lodash's
      [toLower] and the [length] property (the number of UTF-16 code units)
      are parameters of the development, and so are fast-json-patch's
      [compare] and the constant [ERROR404].
    - A role is an object with an identity: React compares the old and the
      new value of a state cell, and of an effect dependency, by reference.
      The identity is the field [ref] of a role. *)

From Stdlib Require Import ZArith.
From stdpp Require Import gmap strings list fin_maps.

(** ** Data model *)

(** [EntityReference] (generated/entity/teams/user): the fields the page
    reads. *)
Module EntityReference.
Record t := mk {
  id : string;
  name : option string;
  displayName : option string
}.
#[global] Instance eq_dec : EqDecision t.
Proof. solve_decision. Defined.
End EntityReference.

(** [Role] (generated/entity/teams/role).  Form data cast to [Role] carries
    no [id]; [displayName], [description], [policy] and [users] are read
    through [?.] and [??].

    [ref] is the identity of the object, not one of its properties: two
    roles are the same object exactly when they have the same [ref], and
    every object that arrives with a response is a new one. *)
Module Role.
Record t := mk {
  ref : nat;
  id : option string;
  name : string;
  displayName : option string;
  description : option string;
  policy : option EntityReference.t;
  users : option (list EntityReference.t)
}.
#[global] Instance eq_dec : EqDecision t.
Proof. solve_decision. Defined.
End Role.

(** [Rule] (generated/entity/policies/accessControl/rule).  [operation] is a
    string enumeration; the add-rule form starts from [''], which is falsy. *)
Module Rule.
Record t := mk {
  name : string;
  operation : option string;
  allow : option bool;
  enabled : option bool;
  userRoleAttr : option string
}.
#[global] Instance eq_dec : EqDecision t.
Proof. solve_decision. Defined.
End Rule.

(** Modelled from the spec: the [Policy] interface of [./policy.interface],
    which is not part of the sources at hand: name, policyType and an ordered
    list of rules. *)
Module Policy.
Record t := mk {
  name : string;
  policyType : string;
  rules : list Rule.t
}.
#[global] Instance eq_dec : EqDecision t.
Proof. solve_decision. Defined.
End Policy.

(** The object literal [{ name, policyType, rules }] built by the three rule
    mutations.  Each field is read through [currentPolicy?.], so it is
    [undefined] when no policy is held. *)
Module PolicyUpdate.
Record t := mk {
  name : option string;
  policyType : option string;
  rules : option (list Rule.t)
}.
End PolicyUpdate.

(** A JSON-patch operation, as fast-json-patch produces them. *)
Module PatchOperation.
Record t := mk {
  op : string;
  path : string;
  value : option string
}.
End PatchOperation.

(** The payload of a failed call ([AxiosError]): [message], and the body of
    the response when there is one ([response.data.code],
    [response.data.message]). *)
Module ErrorBody.
Record t := mk {
  code : option Z;
  message : option string
}.
End ErrorBody.

Module AxiosError.
Record t := mk {
  message : option string;
  response : option ErrorBody.t
}.
End AxiosError.

(** The [{ rule, state }] pair kept for the edit-rule and delete-rule
    dialogs. *)
Module RuleDialog.
Record t := mk {
  rule : option Rule.t;
  state : bool
}.
Definition closed : t := mk None false.
End RuleDialog.

(** [FormErrorData]: field name to message. *)
Abbreviation FormErrorData := (gmap string string).

(** The state cells of the component, in the order of their [useState]. *)
Record PageState := mkPageState {
  roles : list Role.t;
  currentRole : option Role.t;
  currentPolicy : option Policy.t;
  error : string;
  currentTab : Z;
  isLoading : bool;
  isLoadingPolicy : bool;
  isAddingRole : bool;
  isAddingRule : bool;
  errorData : option FormErrorData;
  isEditable : bool;
  deletingRule : RuleDialog.t;
  editingRule : RuleDialog.t
}.

(** The state of the first render. *)
Definition initialState : PageState := {|
  roles := [];
  currentRole := None;
  currentPolicy := None;
  error := "";
  currentTab := 1;
  isLoading := false;
  isLoadingPolicy := false;
  isAddingRole := false;
  isAddingRule := false;
  errorData := None;
  isEditable := false;
  deletingRule := RuleDialog.closed;
  editingRule := RuleDialog.closed
|}.

(** ** What a handler does to the outside *)

Inductive Request :=
| GetPolicy (id : option string) (fields : string)
| GetRoles (fields : list string)
| CreateRole (description : option string) (name : string)
             (displayName : option string)
| GetRoleByName (name : string) (fields : list string)
| UpdateRole (id : option string) (patch : list PatchOperation.t)
| UpdatePolicy (p : PolicyUpdate.t).

Inductive Effect :=
| Toast (variant body : string)
| Call (r : Request).

(** How a call settles. *)
Inductive Outcome (A : Type) :=
| Resolved (data : A)
| Rejected (err : AxiosError.t).
Arguments Resolved {A} data.
Arguments Rejected {A} err.

Definition is_resolved {A} (res : Outcome A) : bool :=
  match res with
  | Resolved _ => true
  | Rejected _ => false
  end.

(** ** The handler monad: state cells and a log of effects *)

Definition Handler (A : Type) : Type := PageState → A * PageState * list Effect.

#[export] Instance Handler_ret : MRet Handler :=
  λ A (a : A) st, (a, st, []).

#[export] Instance Handler_bind : MBind Handler :=
  λ A B (k : A → Handler B) (m : Handler A) st,
    let '(a, st1, log1) := m st in
    let '(b, st2, log2) := k a st1 in
    (b, st2, log1 ++ log2).

Definition modify (f : PageState → PageState) : Handler unit :=
  λ st, (tt, f st, []).

Definition emit (e : Effect) : Handler unit :=
  λ st, (tt, st, [e]).

Definition result {A} (x : A * PageState * list Effect) : A := x.1.1.
Definition after {A} (x : A * PageState * list Effect) : PageState := x.1.2.
Definition effects {A} (x : A * PageState * list Effect) : list Effect := x.2.

(** The calls and the toasts of a log. *)
Definition calls (log : list Effect) : list Request :=
  omap (λ e, match e with Call r => Some r | Toast _ _ => None end) log.

Definition toasts (log : list Effect) : list (string * string) :=
  omap (λ e, match e with Toast v b => Some (v, b) | Call _ => None end) log.

Definition skip : Handler unit := mret tt.

Definition showToast (variant body : string) : Handler unit :=
  emit (Toast variant body).

Definition call (r : Request) : Handler unit := emit (Call r).

(** The setters returned by [useState]. *)
Definition setRoles (v : list Role.t) : Handler unit :=
  modify (λ s, mkPageState v (currentRole s) (currentPolicy s) (error s)
    (currentTab s) (isLoading s) (isLoadingPolicy s) (isAddingRole s)
    (isAddingRule s) (errorData s) (isEditable s) (deletingRule s)
    (editingRule s)).

Definition setCurrentRole (v : option Role.t) : Handler unit :=
  modify (λ s, mkPageState (roles s) v (currentPolicy s) (error s)
    (currentTab s) (isLoading s) (isLoadingPolicy s) (isAddingRole s)
    (isAddingRule s) (errorData s) (isEditable s) (deletingRule s)
    (editingRule s)).

Definition setCurrentPolicy (v : option Policy.t) : Handler unit :=
  modify (λ s, mkPageState (roles s) (currentRole s) v (error s)
    (currentTab s) (isLoading s) (isLoadingPolicy s) (isAddingRole s)
    (isAddingRule s) (errorData s) (isEditable s) (deletingRule s)
    (editingRule s)).

Definition setError (v : string) : Handler unit :=
  modify (λ s, mkPageState (roles s) (currentRole s) (currentPolicy s) v
    (currentTab s) (isLoading s) (isLoadingPolicy s) (isAddingRole s)
    (isAddingRule s) (errorData s) (isEditable s) (deletingRule s)
    (editingRule s)).

Definition setCurrentTab (v : Z) : Handler unit :=
  modify (λ s, mkPageState (roles s) (currentRole s) (currentPolicy s)
    (error s) v (isLoading s) (isLoadingPolicy s) (isAddingRole s)
    (isAddingRule s) (errorData s) (isEditable s) (deletingRule s)
    (editingRule s)).

Definition setIsLoading (v : bool) : Handler unit :=
  modify (λ s, mkPageState (roles s) (currentRole s) (currentPolicy s)
    (error s) (currentTab s) v (isLoadingPolicy s) (isAddingRole s)
    (isAddingRule s) (errorData s) (isEditable s) (deletingRule s)
    (editingRule s)).

Definition setIsLoadingPolicy (v : bool) : Handler unit :=
  modify (λ s, mkPageState (roles s) (currentRole s) (currentPolicy s)
    (error s) (currentTab s) (isLoading s) v (isAddingRole s)
    (isAddingRule s) (errorData s) (isEditable s) (deletingRule s)
    (editingRule s)).

Definition setIsAddingRole (v : bool) : Handler unit :=
  modify (λ s, mkPageState (roles s) (currentRole s) (currentPolicy s)
    (error s) (currentTab s) (isLoading s) (isLoadingPolicy s) v
    (isAddingRule s) (errorData s) (isEditable s) (deletingRule s)
    (editingRule s)).

Definition setIsAddingRule (v : bool) : Handler unit :=
  modify (λ s, mkPageState (roles s) (currentRole s) (currentPolicy s)
    (error s) (currentTab s) (isLoading s) (isLoadingPolicy s)
    (isAddingRole s) v (errorData s) (isEditable s) (deletingRule s)
    (editingRule s)).

Definition setErrorData (v : option FormErrorData) : Handler unit :=
  modify (λ s, mkPageState (roles s) (currentRole s) (currentPolicy s)
    (error s) (currentTab s) (isLoading s) (isLoadingPolicy s)
    (isAddingRole s) (isAddingRule s) v (isEditable s) (deletingRule s)
    (editingRule s)).

Definition setIsEditable (v : bool) : Handler unit :=
  modify (λ s, mkPageState (roles s) (currentRole s) (currentPolicy s)
    (error s) (currentTab s) (isLoading s) (isLoadingPolicy s)
    (isAddingRole s) (isAddingRule s) (errorData s) v (deletingRule s)
    (editingRule s)).

Definition setDeletingRule (v : RuleDialog.t) : Handler unit :=
  modify (λ s, mkPageState (roles s) (currentRole s) (currentPolicy s)
    (error s) (currentTab s) (isLoading s) (isLoadingPolicy s)
    (isAddingRole s) (isAddingRule s) (errorData s) (isEditable s) v
    (editingRule s)).

Definition setEditingRule (v : RuleDialog.t) : Handler unit :=
  modify (λ s, mkPageState (roles s) (currentRole s) (currentPolicy s)
    (error s) (currentTab s) (isLoading s) (isLoadingPolicy s)
    (isAddingRole s) (isAddingRule s) (errorData s) (isEditable s)
    (deletingRule s) v).

(** ** JavaScript values *)

(** Truthiness of a string that may be [undefined]: [''] and [undefined] are
    falsy. *)
Definition truthy_string (s : option string) : bool :=
  match s with
  | Some s => negb (String.eqb s "")
  | None => false
  end.

(** Truthiness of a boolean that may be [undefined]. *)
Definition truthy_bool (b : option bool) : bool := default false b.

(** Truthiness of a number that may be [undefined]. *)
Definition truthy_number (n : option Z) : bool :=
  match n with
  | Some n => negb (n =? 0)%Z
  | None => false
  end.

(** A value inside a template literal: [undefined] prints as its name. *)
Definition interpolate (s : option string) : string := default "undefined" s.

(** [Object.values(errData).length]. *)
Definition values_length (m : FormErrorData) : nat :=
  length (map_to_list m).*2.

(** Truthiness of a string: only [''] is falsy. *)
Definition truthy (s : string) : bool := negb (String.eqb s "").

(** ** [trim] and [toLower] on ASCII strings

    The page takes both functions from outside, and the handlers below take
    them as parameters.  These two instances run the page on concrete ASCII
    data. *)

Definition isWhiteSpace (c : Ascii.ascii) : bool :=
  let n := Ascii.N_of_ascii c in
  ((9 <=? n)%N && (n <=? 13)%N) || (n =? 32)%N.

Fixpoint trimStart (s : string) : string :=
  match s with
  | String c rest => if isWhiteSpace c then trimStart rest else s
  | EmptyString => EmptyString
  end.

Definition reverse_string (s : string) : string :=
  String.string_of_list_ascii (rev (String.list_ascii_of_string s)).

Definition trimAscii (s : string) : string :=
  reverse_string (trimStart (reverse_string (trimStart s))).

Definition toLowerChar (c : Ascii.ascii) : Ascii.ascii :=
  let n := Ascii.N_of_ascii c in
  if ((65 <=? n)%N && (n <=? 90)%N) then Ascii.ascii_of_N (n + 32) else c.

Fixpoint toLowerAscii (s : string) : string :=
  match s with
  | String c rest => String (toLowerChar c) (toLowerAscii rest)
  | EmptyString => EmptyString
  end.

(** The object [{ ...currentRole, description: updatedHTML }]: the fields of
    the role held, if one is, with [description] overridden. *)
Module RoleDraft.
Record t := mk {
  base : option Role.t;
  description : string
}.
End RoleDraft.

(** [{ ...rule, enabled: !rule.enabled }], the argument of the enabled
    switch. *)
Definition toggled (rule : Rule.t) : Rule.t :=
  Rule.mk (Rule.name rule) (Rule.operation rule) (Rule.allow rule)
    (Some (negb (truthy_bool (Rule.enabled rule)))) (Rule.userRoleAttr rule).

(** ** The handlers *)

Section RolesPage.

(** [String.prototype.trim], lodash's [toLower], the [length] of a string
    in UTF-16 code units, fast-json-patch's [compare] and the constant
    [ERROR404] of [constants/constants]. *)
Variable trim : string → string.
Variable toLower : string → string.
Variable codeUnits : string → nat.
Variable compare : option Role.t → RoleDraft.t → list PatchOperation.t.
Variable ERROR404 : string.

(** The handlers are closures of one render: they read the state cells as
    that render saw them ([rendered]) and write through the setters. *)
Variable rendered : PageState.

Definition onNewDataChange (data : Role.t) (forceSet : bool)
  : Handler FormErrorData :=
  if bool_decide (is_Some (errorData rendered)) || forceSet then
    let errData : FormErrorData := ∅ in
    let errData :=
      if negb (truthy (trim (Role.name data))) then
        <["name" := "Name is required"]> errData
      else if
        bool_decide (is_Some
          (List.find
             (λ item, String.eqb (toLower (Role.name item))
                                 (toLower (Role.name data)))
             (roles rendered)))
      then <["name" := "Name already exists"]> errData
      else if (codeUnits (Role.name data) <? 1)
              || (128 <? codeUnits (Role.name data))
      then <["name" := "Name size must be between 1 and 128"]> errData
      else errData in
    let errData :=
      match Role.displayName data with
      | Some displayName =>
          if negb (truthy (trim displayName)) then
            <["displayName" := "Display name is required"]> errData
          else if (codeUnits displayName <? 1)
                  || (128 <? codeUnits displayName)
          then <["displayName" :=
                   "Display name size must be between 1 and 128"]> errData
          else errData
      | None => <["displayName" := "Display name is required"]> errData
      end in
    setErrorData (Some errData);;
    mret errData
  else mret ∅.

Definition validateRuleData (data : Rule.t) (forceSet : bool)
  : Handler FormErrorData :=
  if bool_decide (is_Some (errorData rendered)) || forceSet then
    let errData : FormErrorData := ∅ in
    let errData :=
      if negb (truthy_string (Rule.operation data)) then
        <["operation" := "Operation is required."]> errData
      else errData in
    setErrorData (Some errData);;
    mret errData
  else mret ∅.

Definition onDescriptionEdit : Handler unit := setIsEditable true.

Definition onCancel : Handler unit := setIsEditable false.

Definition fetchPolicy (id : option string) : Handler unit :=
  setIsLoadingPolicy true;;
  call (GetPolicy id
    "displayName,description,owner,policyUrl,enabled,rules,location").

(** [.then], [.catch] and [.finally] of [fetchPolicy]. *)
Definition fetchPolicy_settled (res : Outcome (option Policy.t))
  : Handler unit :=
  match res with
  | Resolved data => setCurrentPolicy data
  | Rejected _ => showToast "error" "Error while getting policy"
  end;;
  setIsLoadingPolicy false.

Definition fetchRoles : Handler unit :=
  setIsLoading true;;
  call (GetRoles ["policy"; "users"]).

(** The outcome carries [res.data.data], the list of roles. *)
Definition fetchRoles_settled (res : Outcome (list Role.t)) : Handler unit :=
  match res with
  | Resolved data =>
      setRoles data;;
      setCurrentRole (head data)
  | Rejected _ =>
      setError "Error while getting roles";;
      showToast "error" "Error while getting roles"
  end;;
  setIsLoading false.

Definition createNewRole (data : Role.t) : Handler unit :=
  errData ← onNewDataChange data true;
  if (values_length errData =? 0)%nat then
    call (CreateRole (Role.description data) (Role.name data)
            (Role.displayName data))
  else mret tt.

Definition createNewRole_settled (res : Outcome (option Role.t))
  : Handler unit :=
  match res with
  | Resolved (Some _) => fetchRoles
  | Resolved None => mret tt
  | Rejected error =>
      showToast "error"
        (default "Something went wrong!" (AxiosError.message error))
  end;;
  setIsAddingRole false.

Definition fetchCurrentRole (name : string) (update : bool) : Handler unit :=
  if bool_decide (Role.name <$> currentRole rendered ≠ Some name) || update
  then
    setIsLoading true;;
    call (GetRoleByName name ["users"; "policy"])
  else mret tt.

Definition fetchCurrentRole_settled (res : Outcome (option Role.t))
  : Handler unit :=
  match res with
  | Resolved data =>
      setCurrentRole data;;
      if (length (roles rendered) <=? 0)%nat then fetchRoles else mret tt
  | Rejected err =>
      if truthy_number (AxiosError.response err ≫= ErrorBody.code)
      then setError ERROR404
      else mret tt
  end;;
  setIsLoading false.

Definition onDescriptionUpdate (updatedHTML : string) : Handler unit :=
  if bool_decide
       (currentRole rendered ≫= Role.description ≠ Some updatedHTML)
  then
    let updatedRole := RoleDraft.mk (currentRole rendered) updatedHTML in
    let jsonPatch := compare (currentRole rendered) updatedRole in
    call (UpdateRole (currentRole rendered ≫= Role.id) jsonPatch);;
    setIsEditable false
  else setIsEditable false.

(** The chain of [updateRole] has a [.then] only. *)
Definition onDescriptionUpdate_settled (res : Outcome (option Role.t))
  : Handler unit :=
  match res with
  | Resolved (Some data) => fetchCurrentRole (Role.name data) true
  | Resolved None => mret tt
  | Rejected _ => mret tt
  end.

Definition createRule (data : Rule.t) : Handler unit :=
  errData ← validateRuleData data true;
  if (values_length errData =? 0)%nat then
    let newRule :=
      Rule.mk
        (interpolate (Policy.name <$> currentPolicy rendered) +:+ "-" +:+
         interpolate (Rule.operation data))
        (Rule.operation data) (Rule.allow data) (Rule.enabled data)
        (Role.name <$> currentRole rendered) in
    match currentPolicy rendered with
    | Some policy =>
        let updatedPolicy :=
          PolicyUpdate.mk (Some (Policy.name policy))
            (Some (Policy.policyType policy))
            (Some (Policy.rules policy ++ [newRule])) in
        call (UpdatePolicy updatedPolicy)
    | None =>
        (* spreading [undefined] into the array literal throws: the
           handler stops here *)
        mret tt
    end
  else mret tt.

Definition createRule_settled (res : Outcome (option Policy.t))
  : Handler unit :=
  match res with
  | Resolved data => setCurrentPolicy data
  | Rejected err =>
      showToast "error"
        (default "Error while adding new rule"
           (AxiosError.response err ≫= ErrorBody.message))
  end;;
  setIsAddingRule false.

Definition onRuleUpdate (data : Rule.t) : Handler unit :=
  let rules :=
    (λ policy,
       map (λ rule, if String.eqb (Rule.name rule) (Rule.name data)
                    then data else rule)
           (Policy.rules policy)) <$> currentPolicy rendered in
  let updatedPolicy :=
    PolicyUpdate.mk (Policy.name <$> currentPolicy rendered)
      (Policy.policyType <$> currentPolicy rendered) rules in
  call (UpdatePolicy updatedPolicy).

Definition onRuleUpdate_settled (data : Rule.t)
    (res : Outcome (option Policy.t)) : Handler unit :=
  match res with
  | Resolved data' => setCurrentPolicy data'
  | Rejected err =>
      showToast "error"
        (default ("Error while updating " +:+ Rule.name data +:+ " rule")
           (AxiosError.response err ≫= ErrorBody.message))
  end;;
  setEditingRule (RuleDialog.mk None false).

Definition deleteRule (data : Rule.t) : Handler unit :=
  let updatedPolicy :=
    PolicyUpdate.mk (Policy.name <$> currentPolicy rendered)
      (Policy.policyType <$> currentPolicy rendered)
      ((λ policy,
          filter (λ rule, Rule.operation rule ≠ Rule.operation data)
                 (Policy.rules policy)) <$> currentPolicy rendered) in
  call (UpdatePolicy updatedPolicy).

Definition deleteRule_settled (res : Outcome (option Policy.t))
  : Handler unit :=
  match res with
  | Resolved data => setCurrentPolicy data
  | Rejected err =>
      showToast "error"
        (default "Error while deleting rule"
           (AxiosError.response err ≫= ErrorBody.message))
  end;;
  setDeletingRule (RuleDialog.mk None false).

(** The effect on [[currentRole]]. *)
Definition currentRoleEffect : Handler unit :=
  match currentRole rendered with
  | Some role => fetchPolicy (EntityReference.id <$> Role.policy role)
  | None => mret tt
  end.

(** The two [onClick] closures that open the add-role form, and the one
    that opens the add-rule form. *)
Definition openAddRole : Handler unit :=
  setErrorData None;;
  setIsAddingRole true.

Definition openAddRule : Handler unit :=
  setErrorData None;;
  setIsAddingRule true.

End RolesPage.

(** ** The page as a state machine

    What the user does and what the network answers.  A network event
    answers a call logged earlier.  The two [.then] callbacks that read a
    state cell ([roles] in [fetchCurrentRole]) carry the render whose
    closure issued the call. *)
Inductive Event :=
| Mounted
| AddRoleClicked
| AddRuleClicked
| RoleClicked (role : Role.t)
| TabClicked (tab : Z)
| DescriptionEditClicked
| DescriptionCancelled
| DescriptionSaved (updatedHTML : string)
| RoleFormChanged (data : Role.t)
| RoleFormSaved (data : Role.t)
| RoleFormCancelled
| RuleFormChanged (data : Rule.t)
| RuleFormSaved (data : Rule.t)
| RuleFormCancelled
| RuleSwitchClicked (rule : Rule.t)
| RuleEditClicked (rule : Rule.t)
| RuleEditSaved (data : Rule.t)
| RuleEditCancelled
| RuleDeleteClicked (rule : Rule.t)
| RuleDeleteConfirmed
| RuleDeleteCancelled
| PolicyFetched (res : Outcome (option Policy.t))
| RolesFetched (res : Outcome (list Role.t))
| RoleCreated (res : Outcome (option Role.t))
| RoleFetched (closure : PageState) (res : Outcome (option Role.t))
| RoleUpdated (closure : PageState) (res : Outcome (option Role.t))
| PolicyUpdatedOnCreate (res : Outcome (option Policy.t))
| PolicyUpdatedOnEdit (data : Rule.t) (res : Outcome (option Policy.t))
| PolicyUpdatedOnDelete (res : Outcome (option Policy.t)).

(** A save of one of the two add forms: the only events that validate with
    [forceSet = true]. *)
Definition is_forced_validation (ev : Event) : bool :=
  match ev with
  | RoleFormSaved _ | RuleFormSaved _ => true
  | _ => false
  end.

Section Page.

Variable trim : string → string.
Variable toLower : string → string.
Variable codeUnits : string → nat.
Variable compare : option Role.t → RoleDraft.t → list PatchOperation.t.
Variable ERROR404 : string.

(** Runs the effect on [[currentRole]] after [h] when [h] has put another
    object in the cell.  React compares the old and the new value by
    reference: a role that came with a response ([fresh]) is always a new
    object; a role clicked in the list is the object held exactly when it
    has the [ref] of the object held. *)
Definition thenCurrentRoleEffect (before : PageState) (fresh : bool)
    (h : Handler unit) : Handler unit :=
  h;;
  ((λ st,
     if bool_decide (Role.ref <$> currentRole st
                     ≠ Role.ref <$> currentRole before)
        || (fresh && bool_decide (is_Some (currentRole st)))
     then currentRoleEffect st st
     else skip st) : Handler unit).

(** One event, handled by the closures of the render of [st]. *)
Definition dispatch (ev : Event) : Handler unit := λ st,
  match ev with
  | Mounted => (fetchRoles;; currentRoleEffect st) st
  | AddRoleClicked => openAddRole st
  | AddRuleClicked => openAddRule st
  | RoleClicked role =>
      thenCurrentRoleEffect st false (setCurrentRole (Some role)) st
  | TabClicked tab => setCurrentTab tab st
  | DescriptionEditClicked => onDescriptionEdit st
  | DescriptionCancelled => onCancel st
  | DescriptionSaved updatedHTML =>
      onDescriptionUpdate compare st updatedHTML st
  | RoleFormChanged data =>
      (onNewDataChange trim toLower codeUnits st data false;; mret tt) st
  | RoleFormSaved data => createNewRole trim toLower codeUnits st data st
  | RoleFormCancelled => setIsAddingRole false st
  | RuleFormChanged data => (validateRuleData st data false;; mret tt) st
  | RuleFormSaved data => createRule st data st
  | RuleFormCancelled => setIsAddingRule false st
  | RuleSwitchClicked rule => onRuleUpdate st (toggled rule) st
  | RuleEditClicked rule => setEditingRule (RuleDialog.mk (Some rule) true) st
  | RuleEditSaved data => onRuleUpdate st data st
  | RuleEditCancelled => setEditingRule (RuleDialog.mk None false) st
  | RuleDeleteClicked rule =>
      setDeletingRule (RuleDialog.mk (Some rule) true) st
  | RuleDeleteConfirmed =>
      match RuleDialog.rule (deletingRule st) with
      | Some rule => deleteRule st rule st
      | None => skip st
      end
  | RuleDeleteCancelled => setDeletingRule (RuleDialog.mk None false) st
  | PolicyFetched res => fetchPolicy_settled res st
  | RolesFetched res =>
      thenCurrentRoleEffect st (is_resolved res) (fetchRoles_settled res) st
  | RoleCreated res => createNewRole_settled res st
  | RoleFetched closure res =>
      thenCurrentRoleEffect st (is_resolved res)
        (fetchCurrentRole_settled ERROR404 closure res) st
  | RoleUpdated closure res => onDescriptionUpdate_settled closure res st
  | PolicyUpdatedOnCreate res => createRule_settled res st
  | PolicyUpdatedOnEdit data res => onRuleUpdate_settled data res st
  | PolicyUpdatedOnDelete res => deleteRule_settled res st
  end.

(** A sequence of events, from the left. *)
Fixpoint run (evs : list Event) : Handler unit :=
  match evs with
  | [] => mret tt
  | ev :: evs => dispatch ev;; run evs
  end.

End Page.

(** ** Sample data *)

Definition adminRole : Role.t :=
  Role.mk 1 (Some "r-admin") "admin" (Some "Admin") (Some "Administrators")
    (Some (EntityReference.mk "p-admin" (Some "admin-policy") None))
    (Some []).

Definition stewardRole : Role.t :=
  Role.mk 2 (Some "r-steward") "steward" (Some "Data Steward") None
    (Some (EntityReference.mk "p-steward" (Some "steward-policy") None))
    (Some []).

(** Form data: [{ name, description, displayName }]. *)
Definition formRole (name displayName : string) : Role.t :=
  Role.mk 0 None name (Some displayName) (Some "") None None.

Definition updateTags : Rule.t :=
  Rule.mk "admin-policy-UpdateTags" (Some "UpdateTags") (Some true)
    (Some true) (Some "admin").

Definition updateOwner : Rule.t :=
  Rule.mk "admin-policy-UpdateOwner" (Some "UpdateOwner") (Some true)
    (Some false) (Some "admin").

(** A second rule for the operation of [updateTags], under another name. *)
Definition denyTags : Rule.t :=
  Rule.mk "deny-tags" (Some "UpdateTags") (Some false) (Some true)
    (Some "admin").

Definition adminPolicy : Policy.t :=
  Policy.mk "admin-policy" "AccessControl" [updateTags; updateOwner; denyTags].

Definition stewardPolicy : Policy.t :=
  Policy.mk "steward-policy" "AccessControl" [].

(** The page once the roles and the policy of the first role are loaded. *)
Definition loadedState : PageState := {|
  roles := [adminRole; stewardRole];
  currentRole := Some adminRole;
  currentPolicy := Some adminPolicy;
  error := "";
  currentTab := 1;
  isLoading := false;
  isLoadingPolicy := false;
  isAddingRole := false;
  isAddingRule := false;
  errorData := None;
  isEditable := false;
  deletingRule := RuleDialog.closed;
  editingRule := RuleDialog.closed
|}.

(** The page of the scenario: one role, named "admin", is loaded. *)
Definition adminOnlyState : PageState := {|
  roles := [adminRole];
  currentRole := Some adminRole;
  currentPolicy := Some adminPolicy;
  error := "";
  currentTab := 1;
  isLoading := false;
  isLoadingPolicy := false;
  isAddingRole := false;
  isAddingRule := false;
  errorData := None;
  isEditable := false;
  deletingRule := RuleDialog.closed;
  editingRule := RuleDialog.closed
|}.

(** A value for [ERROR404]. *)
Definition notFound : string := "No data found".

Definition notFoundError : AxiosError.t :=
  AxiosError.mk (Some "Request failed with status code 404")
    (Some (ErrorBody.mk (Some 404%Z) (Some "role not found"))).

Definition networkError : AxiosError.t :=
  AxiosError.mk (Some "Network Error") None.

(** No patch at all: enough to run the page where the patch is not looked
    at. *)
Definition noPatch (_ : option Role.t) (_ : RoleDraft.t)
  : list PatchOperation.t := [].

(** The page on ASCII data. *)
Definition dispatchAscii : Event → Handler unit :=
  dispatch trimAscii toLowerAscii String.length noPatch notFound.

Definition runAscii : list Event → Handler unit :=
  run trimAscii toLowerAscii String.length noPatch notFound.

(** The policy ids asked for by the [getPolicy] calls of a log. *)
Definition policyFetches (log : list Effect) : list (option string) :=
  omap (λ e, match e with
             | Call (GetPolicy id _) => Some id
             | _ => None
             end) log.

(** The field list of [fetchPolicy]. *)
Definition policyFields : string :=
  "displayName,description,owner,policyUrl,enabled,rules,location".

(** ** The view

    What the render shows, as far as the state cells decide it. *)

Definition getActiveTabClass (tab currentTab : Z) : string :=
  if (tab =? currentTab)%Z then "active" else "".

(** The body of the page: the error placeholder when [error] is truthy;
    else, inside the layout, the loader while [isLoading]; else the role
    container, with the current role when [roles.length > 0] and with the
    'No Roles Added.' placeholder otherwise. *)
Inductive PageBody :=
| ErrorPlaceHolder
| Loader
| RoleContainer (hasRoles : bool).

Definition pageBody (st : PageState) : PageBody :=
  if truthy (error st) then ErrorPlaceHolder
  else if isLoading st then Loader
  else RoleContainer (0 <? length (roles st))%nat.

(** The modals at the end of the role container, in their order. *)
Inductive Dialog :=
| AddRoleForm
| AddRuleForm
| EditRuleForm (rule : option Rule.t)
| DeleteRuleConfirmation (rule : option Rule.t).

Definition dialogs (st : PageState) : list Dialog :=
  match pageBody st with
  | RoleContainer _ =>
      (if isAddingRole st then [AddRoleForm] else [])
      ++ (if isAddingRule st then [AddRuleForm] else [])
      ++ (if RuleDialog.state (editingRule st)
          then [EditRuleForm (RuleDialog.rule (editingRule st))] else [])
      ++ (if RuleDialog.state (deletingRule st)
          then [DeleteRuleConfirmation (RuleDialog.rule (deletingRule st))]
          else [])
  | _ => []
  end.

(** The events whose handler writes what the server sent into [roles] or
    [currentPolicy]: the responses that resolve. *)
Definition brings_server_data (ev : Event) : bool :=
  match ev with
  | PolicyFetched (Resolved _)
  | RolesFetched (Resolved _)
  | PolicyUpdatedOnCreate (Resolved _)
  | PolicyUpdatedOnEdit _ (Resolved _)
  | PolicyUpdatedOnDelete (Resolved _) => true
  | _ => false
  end.


(** The admin role as [getRoleByName] returns it: the same properties in a
    new object. *)
Definition adminRoleByName : Role.t :=
  Role.mk 7 (Some "r-admin") "admin" (Some "Admin") (Some "Administrators")
    (Some (EntityReference.mk "p-admin" (Some "admin-policy") None))
    (Some []).

(** The rule that [createRule] appends for form data [data]. *)
Definition createdRule (policy : Policy.t) (role : option Role.t)
    (data : Rule.t) : Rule.t :=
  Rule.mk
    (Policy.name policy +:+ "-" +:+ interpolate (Rule.operation data))
    (Rule.operation data) (Rule.allow data) (Rule.enabled data)
    (Role.name <$> role).

(** The replacement policy with the name and the type of [policy] and the
    rules [rules]. *)
Definition replacement (policy : Policy.t) (rules : list Rule.t)
  : PolicyUpdate.t :=
  PolicyUpdate.mk (Some (Policy.name policy))
    (Some (Policy.policyType policy)) (Some rules).

(** Form data of the add-rule form. *)
Definition formRule (operation : string) (allow : bool) : Rule.t :=
  Rule.mk "" (Some operation) (Some allow) (Some true) None.

(** The loaded page with the add-role form open after a save that found
    nothing wrong: an empty error state is recorded. *)
Definition savedState : PageState := {|
  roles := [adminRole; stewardRole];
  currentRole := Some adminRole;
  currentPolicy := Some adminPolicy;
  error := "";
  currentTab := 1;
  isLoading := false;
  isLoadingPolicy := false;
  isAddingRole := true;
  isAddingRule := false;
  errorData := Some ∅;
  isEditable := false;
  deletingRule := RuleDialog.closed;
  editingRule := RuleDialog.closed
|}.

(** A name of [n] characters. *)
Fixpoint nameOfLength (n : nat) : string :=
  match n with
  | O => EmptyString
  | S n => "a" +:+ nameOfLength n
  end.

Definition curatorRole : Role.t :=
  Role.mk 3 (Some "r-curator") "curator" (Some "Curator") (Some "")
    (Some (EntityReference.mk "p-curator" (Some "curator-policy") None))
    (Some []).

(** ** Properties *)

(** Unfolds the monad and the setters, so that a handler applied to a state
    computes. *)
Ltac run_handler :=
  unfold thenCurrentRoleEffect, currentRoleEffect, fetchPolicy, fetchRoles,
    openAddRole, openAddRule, onDescriptionEdit, onCancel,
    fetchPolicy_settled, fetchRoles_settled, createNewRole_settled,
    createRule_settled, onRuleUpdate_settled, deleteRule_settled,
    onRuleUpdate, deleteRule;
  unfold mbind, Handler_bind, mret, Handler_ret, skip, showToast, call, emit,
    setRoles, setCurrentRole, setCurrentPolicy, setError, setCurrentTab,
    setIsLoading, setIsLoadingPolicy, setIsAddingRole, setIsAddingRule,
    setErrorData, setIsEditable, setDeletingRule, setEditingRule, modify;
  cbn [after effects result fst snd roles currentRole currentPolicy error
       currentTab isLoading isLoadingPolicy isAddingRole isAddingRule
       errorData isEditable deletingRule editingRule app].

(** Unfolds the handlers that branch before they write. *)
Ltac run_branching :=
  unfold createNewRole, createRule, onDescriptionUpdate,
    onDescriptionUpdate_settled, fetchCurrentRole, fetchCurrentRole_settled,
    onNewDataChange, validateRuleData; cbv zeta;
  rewrite ?orb_true_r.

Lemma lookup_map {A B} (f : A → B) (l : list A) (i : nat) :
  map f l !! i = f <$> l !! i.
Proof.
  revert i. induction l as [|x l IH]; intros [|i]; simpl; auto.
Qed.

Lemma values_length_0 (m : FormErrorData) : values_length m = 0 ↔ m = ∅.
Proof.
  unfold values_length. rewrite length_fmap.
  rewrite <- map_to_list_empty_iff.
  destruct (map_to_list m); simpl; split; congruence.
Qed.

Lemma find_is_Some {A} (f : A → bool) (l : list A) :
  (∃ x, x ∈ l ∧ f x = true) → is_Some (List.find f l).
Proof.
  intros (x & Hx & Hf). destruct (List.find f l) eqn:E; [eauto|].
  apply list_elem_of_In in Hx.
  pose proof (find_none f l E x Hx). congruence.
Qed.

Lemma truthy_false (s : string) : truthy s = false ↔ s = "".
Proof.
  unfold truthy. destruct (String.eqb_spec s ""); simpl; split; congruence.
Qed.

Lemma result_seq_ret {A} (h : Handler unit) (a : A) (st : PageState) :
  result ((h;; mret a) st) = a.
Proof.
  unfold mbind, Handler_bind, mret, Handler_ret, result.
  destruct (h st) as [[[] st1] log1]. reflexivity.
Qed.

Lemma gate_open (rendered : PageState) (forceSet : bool) :
  is_Some (errorData rendered) ∨ forceSet = true →
  bool_decide (is_Some (errorData rendered)) || forceSet = true.
Proof.
  intros [H| ->]; [|apply orb_true_r].
  by rewrite (bool_decide_eq_true_2 _ H).
Qed.

(** C3.  With policy [p] held, deleting rule [r] writes no state cell and
    submits one replacement policy, with the name and the type of [p], whose
    rules are the rules of [p], in their order, whose operation differs from
    the operation of [r]: every rule that shares the operation of [r] is
    gone, whatever its name. *)
Theorem delete_removes_every_rule_of_the_operation (rendered st : PageState)
    (r : Rule.t) (p : Policy.t) :
  currentPolicy rendered = Some p →
  ∃ rs,
    deleteRule rendered r st
      = (tt, st,
         [Call (UpdatePolicy
                  (PolicyUpdate.mk (Some (Policy.name p))
                     (Some (Policy.policyType p)) (Some rs)))])
    ∧ rs = filter (λ rule, Rule.operation rule ≠ Rule.operation r)
                  (Policy.rules p)
    ∧ (∀ rule, rule ∈ rs ↔
               rule ∈ Policy.rules p
               ∧ Rule.operation rule ≠ Rule.operation r)
    ∧ rs `sublist_of` Policy.rules p.
Proof.
  intros Hp. eexists. split; [|split; [reflexivity|split]].
  - unfold deleteRule. rewrite Hp. reflexivity.
  - intros rule. rewrite list_elem_of_filter. tauto.
  - apply sublist_filter.
Qed.

(** C4.  With policy [p] held and [r] one of its rules, the enabled switch
    of [r] writes no state cell and submits one replacement policy, with the
    name and the type of [p], whose rules are those of [p], position by
    position, except that a rule named as [r] is replaced by [r] with
    [enabled] negated and nothing else changed. *)
Theorem toggle_replaces_the_named_rule (rendered st : PageState)
    (r : Rule.t) (p : Policy.t) :
  currentPolicy rendered = Some p →
  r ∈ Policy.rules p →
  ∃ rs,
    onRuleUpdate rendered (toggled r) st
      = (tt, st,
         [Call (UpdatePolicy
                  (PolicyUpdate.mk (Some (Policy.name p))
                     (Some (Policy.policyType p)) (Some rs)))])
    ∧ length rs = length (Policy.rules p)
    ∧ (∀ i rule, Policy.rules p !! i = Some rule →
         rs !! i = Some (if decide (Rule.name rule = Rule.name r)
                         then toggled r else rule))
    ∧ toggled r ∈ rs
    ∧ Rule.name (toggled r) = Rule.name r
    ∧ Rule.operation (toggled r) = Rule.operation r
    ∧ Rule.allow (toggled r) = Rule.allow r
    ∧ Rule.userRoleAttr (toggled r) = Rule.userRoleAttr r
    ∧ Rule.enabled (toggled r) = Some (negb (truthy_bool (Rule.enabled r))).
Proof.
  intros Hp Hr. eexists. split.
  { unfold onRuleUpdate. rewrite Hp. reflexivity. }
  assert (∀ i rule, Policy.rules p !! i = Some rule →
    map (λ rule, if String.eqb (Rule.name rule) (Rule.name (toggled r))
                 then toggled r else rule) (Policy.rules p) !! i
    = Some (if decide (Rule.name rule = Rule.name r)
            then toggled r else rule)) as Hlookup.
  { intros i rule Hi. rewrite lookup_map, Hi. cbn [fmap option_fmap option_map].
    f_equal. cbn [toggled Rule.name].
    destruct (String.eqb_spec (Rule.name rule) (Rule.name r));
      destruct (decide (Rule.name rule = Rule.name r)); done. }
  split; [apply length_map|]. split; [exact Hlookup|].
  split; [|done].
  apply list_elem_of_lookup in Hr as [i Hi].
  apply list_elem_of_lookup. exists i.
  rewrite (Hlookup i r Hi). by rewrite decide_True.
Qed.

Section Properties.

Variable trim : string → string.
Variable toLower : string → string.
Variable codeUnits : string → nat.
Variable compare : option Role.t → RoleDraft.t → list PatchOperation.t.
Variable ERROR404 : string.

(** C1.  With no error state recorded ([errorData] undefined) and the force
    flag unset, role validation and rule validation return the empty
    mapping for every input, valid or not; they write no state cell and do
    nothing else. *)
Theorem validation_is_gated (rendered st : PageState)
    (role : Role.t) (rule : Rule.t) :
  errorData rendered = None →
  onNewDataChange trim toLower codeUnits rendered role false st = (∅, st, [])
  ∧ validateRuleData rendered rule false st = (∅, st, []).
Proof.
  intros Hnone. unfold onNewDataChange, validateRuleData.
  rewrite Hnone. split; reflexivity.
Qed.

(** C2.  When role validation executes (an error state is recorded or the
    force flag is set), a name that is blank after trimming gets the error
    'Name is required' and a name that equals, up to case, the name of a
    loaded role gets 'Name already exists': in both cases the mapping has a
    non-empty error under the key "name". *)
Theorem blank_or_duplicate_name_is_rejected (rendered st : PageState)
    (data : Role.t) (forceSet : bool) :
  is_Some (errorData rendered) ∨ forceSet = true →
  trim (Role.name data) = ""
  ∨ (∃ item, item ∈ roles rendered
             ∧ toLower (Role.name item) = toLower (Role.name data)) →
  ∃ msg,
    result (onNewDataChange trim toLower codeUnits rendered data forceSet st) !! "name"
      = Some msg
    ∧ msg ≠ ""
    ∧ msg = if decide (trim (Role.name data) = "")
            then "Name is required" else "Name already exists".
Proof.
  intros Hgate Hbad. unfold onNewDataChange.
  rewrite (gate_open _ _ Hgate). cbv zeta. rewrite result_seq_ret.
  destruct (decide (trim (Role.name data) = "")) as [Hblank|Hblank].
  - apply truthy_false in Hblank. rewrite Hblank. cbn [negb].
    exists "Name is required".
    split; [|done].
    destruct (Role.displayName data); repeat case_match;
      by rewrite ?(lookup_insert_ne _ "displayName"), lookup_insert_eq.
  - destruct Hbad as [?|Hdup]; [done|].
    assert (truthy (trim (Role.name data)) = true) as ->.
    { destruct (truthy _) eqn:E; [done|]. by apply truthy_false in E. }
    cbn [negb]. rewrite bool_decide_eq_true_2.
    + exists "Name already exists".
      split; [|done].
      destruct (Role.displayName data); repeat case_match;
        by rewrite ?(lookup_insert_ne _ "displayName"), lookup_insert_eq.
    + apply find_is_Some. destruct Hdup as (item & Hin & Heq).
      exists item. split; [done|]. by apply String.eqb_eq.
Qed.

(** C5.  When the forced validation of role creation returns a non-empty
    mapping, [createNewRole] does not call the create endpoint: it issues no
    call at all. *)
Theorem invalid_role_is_not_submitted (rendered st : PageState)
    (data : Role.t) :
  result (onNewDataChange trim toLower codeUnits rendered data true st) ≠ ∅ →
  calls (effects (createNewRole trim toLower codeUnits rendered data st)) = [].
Proof.
  intros Hbad. unfold createNewRole.
  unfold mbind, Handler_bind.
  destruct (onNewDataChange trim toLower codeUnits rendered data true st)
    as [[errData st1] log1] eqn:E.
  cbn in Hbad.
  destruct (values_length errData =? 0)%nat eqn:Hlen.
  - apply Nat.eqb_eq, values_length_0 in Hlen. done.
  - cbn. rewrite app_nil_r.
    revert E. unfold onNewDataChange. rewrite orb_true_r. cbn.
    intros [= _ _ <-]. done.
Qed.

(** C6, as the code has it.  [createNewRole] validates with the force flag.
    When the mapping is empty it issues the create call, and whichever way
    that call settles the adding-role flag ends false.  When the mapping is
    not empty no call is issued and the flag is left as it is.  When the
    create call succeeds with a body, the role list is asked for again and
    the [roles] cell is not written, until that list arrives and replaces
    it. *)
Theorem role_creation_closes_the_form_when_the_call_settles
    (rendered st st' : PageState) (data created : Role.t)
    (res : Outcome (option Role.t)) (fetched : list Role.t) :
  (if decide (result (onNewDataChange trim toLower codeUnits rendered data true st) = ∅)
   then calls (effects (createNewRole trim toLower codeUnits rendered data st))
        = [CreateRole (Role.description data) (Role.name data)
             (Role.displayName data)]
   else calls (effects (createNewRole trim toLower codeUnits rendered data st)) = []
        ∧ isAddingRole (after (createNewRole trim toLower codeUnits rendered data st))
          = isAddingRole st)
  ∧ isAddingRole (after (createNewRole_settled res st')) = false
  ∧ calls (effects (createNewRole_settled (Resolved (Some created)) st'))
    = [GetRoles ["policy"; "users"]]
  ∧ roles (after (createNewRole_settled res st')) = roles st'
  ∧ roles (after (fetchRoles_settled (Resolved fetched) st')) = fetched.
Proof.
  split; [|split; [|split; [|split]]].
  - unfold createNewRole, onNewDataChange. rewrite orb_true_r. cbv zeta.
    rewrite result_seq_ret.
    unfold mbind, Handler_bind, setErrorData, modify, mret, Handler_ret.
    match goal with |- context [decide (?m = ∅)] => set (errData := m) end.
    destruct (decide (errData = ∅)) as [He|He].
    + apply values_length_0 in He. rewrite He. reflexivity.
    + destruct (values_length errData =? 0)%nat eqn:Hlen.
      * apply Nat.eqb_eq, values_length_0 in Hlen. done.
      * split; reflexivity.
  - destruct res as [[?|]|?]; reflexivity.
  - reflexivity.
  - destruct res as [[?|]|?]; reflexivity.
  - reflexivity.
Qed.

(** C7, as the code has it.  When the policy fetch, the role creation or
    one of the three rule mutations fails, one error toast is shown and the
    state is left as it was but for the cell that the [finally] clause
    resets.  A failed fetch of the role list shows one toast and also writes
    the page error; a failed fetch of a role by name shows no toast and
    writes the page error when the response body has a code; both clear the
    loading flag.  The [finally] clause of each of the seven handlers resets
    its cell on success as on failure. *)
Theorem failed_calls_toast_and_reset (st : PageState) (err : AxiosError.t)
    (closure : PageState) (data : Rule.t) :
  (fetchPolicy_settled (Rejected err) st
     = (tt, after (setIsLoadingPolicy false st),
        [Toast "error" "Error while getting policy"])
   ∧ createNewRole_settled (Rejected err) st
     = (tt, after (setIsAddingRole false st),
        [Toast "error"
           (default "Something went wrong!" (AxiosError.message err))])
   ∧ createRule_settled (Rejected err) st
     = (tt, after (setIsAddingRule false st),
        [Toast "error"
           (default "Error while adding new rule"
              (AxiosError.response err ≫= ErrorBody.message))])
   ∧ onRuleUpdate_settled data (Rejected err) st
     = (tt, after (setEditingRule (RuleDialog.mk None false) st),
        [Toast "error"
           (default ("Error while updating " +:+ Rule.name data +:+ " rule")
              (AxiosError.response err ≫= ErrorBody.message))])
   ∧ deleteRule_settled (Rejected err) st
     = (tt, after (setDeletingRule (RuleDialog.mk None false) st),
        [Toast "error"
           (default "Error while deleting rule"
              (AxiosError.response err ≫= ErrorBody.message))]))
  ∧ (fetchRoles_settled (Rejected err) st
     = (tt,
        after (setIsLoading false
                 (after (setError "Error while getting roles" st))),
        [Toast "error" "Error while getting roles"])
     ∧ fetchCurrentRole_settled ERROR404 closure (Rejected err) st
       = (tt,
          after (setIsLoading false
                   (if truthy_number
                         (AxiosError.response err ≫= ErrorBody.code)
                    then after (setError ERROR404 st) else st)),
          []))
  ∧ (∀ (policy : Outcome (option Policy.t)) (role : Outcome (option Role.t))
       (list : Outcome (list Role.t)),
       isLoadingPolicy (after (fetchPolicy_settled policy st)) = false
       ∧ isAddingRole (after (createNewRole_settled role st)) = false
       ∧ isAddingRule (after (createRule_settled policy st)) = false
       ∧ editingRule (after (onRuleUpdate_settled data policy st))
         = RuleDialog.mk None false
       ∧ deletingRule (after (deleteRule_settled policy st))
         = RuleDialog.mk None false
       ∧ isLoading (after (fetchRoles_settled list st)) = false
       ∧ isLoading (after (fetchCurrentRole_settled ERROR404 closure role st))
         = false).
Proof.
  split; [|split].
  - repeat split.
  - split; [reflexivity|].
    unfold fetchCurrentRole_settled.
    destruct (truthy_number _); reflexivity.
  - intros policy role list. repeat split.
    + by destruct policy.
    + by destruct role as [[?|]|?].
    + by destruct policy.
    + by destruct policy.
    + by destruct policy.
    + by destruct list.
    + unfold fetchCurrentRole_settled. destruct role as [?|e].
      * destruct (length (roles closure) <=? 0)%nat; reflexivity.
      * destruct (truthy_number _); reflexivity.
Qed.



(** C9.  [onDescriptionUpdate] sets the edit flag to false itself, before
    the call settles; it calls the update endpoint exactly when the new
    description differs from the description of the current role; and the
    callback that runs when the call settles, in success or in failure,
    does not write the edit flag. *)
Theorem description_update_leaves_edit_mode (rendered st st' : PageState)
    (updatedHTML : string) (res : Outcome (option Role.t)) :
  isEditable (after (onDescriptionUpdate compare rendered updatedHTML st))
    = false
  ∧ calls (effects (onDescriptionUpdate compare rendered updatedHTML st))
    = (if decide (currentRole rendered ≫= Role.description = Some updatedHTML)
       then []
       else [UpdateRole (currentRole rendered ≫= Role.id)
               (compare (currentRole rendered)
                  (RoleDraft.mk (currentRole rendered) updatedHTML))])
  ∧ (calls (effects (onDescriptionUpdate compare rendered updatedHTML st))
       ≠ []
     ↔ currentRole rendered ≫= Role.description ≠ Some updatedHTML)
  ∧ isEditable (after (onDescriptionUpdate_settled rendered res st'))
    = isEditable st'.
Proof.
  assert (isEditable (after (onDescriptionUpdate_settled rendered res st'))
          = isEditable st') as Hsettled.
  { unfold onDescriptionUpdate_settled, fetchCurrentRole.
    destruct res as [[?|]|?]; rewrite ?orb_true_r; reflexivity. }
  unfold onDescriptionUpdate.
  destruct (decide (currentRole rendered ≫= Role.description
                    = Some updatedHTML)) as [He|He].
  - rewrite bool_decide_eq_false_2 by (intros H; by apply H).
    repeat split; done.
  - rewrite bool_decide_eq_true_2 by done.
    repeat split; done.
Qed.

Lemma unforced_event_keeps_errorData_undefined (ev : Event)
    (st : PageState) :
  is_forced_validation ev = false →
  errorData st = None →
  errorData (after (dispatch trim toLower codeUnits compare ERROR404 ev st)) = None.
Proof.
  intros Hev Hst.
  destruct ev; try discriminate Hev; unfold dispatch;
    try (run_handler; done).
  - (* Mounted *)
    run_handler. destruct (currentRole st); done.
  - (* RoleClicked *)
    run_handler. destruct (bool_decide _ || _); done.
  - (* DescriptionSaved *)
    unfold onDescriptionUpdate. destruct (bool_decide _);
      run_handler; done.
  - (* RoleFormChanged *)
    unfold onNewDataChange. rewrite Hst. run_handler. done.
  - (* RuleFormChanged *)
    unfold validateRuleData. rewrite Hst. run_handler. done.
  - (* RuleDeleteConfirmed *)
    destruct (RuleDialog.rule (deletingRule st)); run_handler; done.
  - (* PolicyFetched *)
    destruct res; run_handler; done.
  - (* RolesFetched *)
    destruct res as [[|role rest]|?]; run_handler;
      destruct (bool_decide _ || _); try destruct (currentRole st);
      done.
  - (* RoleCreated *)
    destruct res as [[?|]|?]; run_handler; done.
  - (* RoleFetched *)
    unfold fetchCurrentRole_settled.
    destruct res as [[?|]|?];
      try destruct (length (roles closure) <=? 0)%nat;
      try destruct (truthy_number _);
      run_handler;
      destruct (bool_decide _ || _); try destruct (currentRole st);
      done.
  - (* RoleUpdated *)
    unfold onDescriptionUpdate_settled, fetchCurrentRole.
    destruct res as [[?|]|?]; rewrite ?orb_true_r; run_handler; done.
  - (* PolicyUpdatedOnCreate *)
    destruct res; run_handler; done.
  - (* PolicyUpdatedOnEdit *)
    destruct res; run_handler; done.
  - (* PolicyUpdatedOnDelete *)
    destruct res; run_handler; done.
Qed.

Lemma after_run_cons (ev : Event) (evs : list Event) (st : PageState) :
  after (run trim toLower codeUnits compare ERROR404 (ev :: evs) st)
  = after (run trim toLower codeUnits compare ERROR404 evs
             (after (dispatch trim toLower codeUnits compare ERROR404 ev st))).
Proof.
  cbn [run]. unfold mbind, Handler_bind, after.
  destruct (dispatch _ _ _ _ _ ev st) as [[[] st1] log1]. cbn.
  destruct (run _ _ _ _ _ evs st1) as [[[] st2] log2]. reflexivity.
Qed.

(** C10, as the code has it.  Each handler that opens the add-role or the
    add-rule form first sets [errorData] to undefined.  From then on, as
    long as no form is saved (a save validates with the force flag and
    records an error state, empty or not), [errorData] stays undefined
    through every event, and a validation without the force flag returns the
    empty mapping for every input. *)
Theorem open_form_validates_nothing_until_saved (st : PageState)
    (opener : Event) (evs : list Event) (role : Role.t) (rule : Rule.t) :
  opener = AddRoleClicked ∨ opener = AddRuleClicked →
  Forall (λ ev, is_forced_validation ev = false) evs →
  let opened := after (dispatch trim toLower codeUnits compare ERROR404 opener st) in
  let later := after (run trim toLower codeUnits compare ERROR404 evs opened) in
  errorData opened = None
  ∧ (isAddingRole opened = true ∨ isAddingRule opened = true)
  ∧ errorData later = None
  ∧ result (onNewDataChange trim toLower codeUnits later role false later) = ∅
  ∧ result (validateRuleData later rule false later) = ∅.
Proof.
  intros Hopener Hevs opened later.
  assert (errorData opened = None) as Hopened
    by (destruct Hopener as [-> | ->]; reflexivity).
  assert (errorData later = None) as Hlater.
  { subst later. clearbody opened. clear Hopener.
    revert opened Hopened.
    induction Hevs as [|ev evs Hev _ IH]; intros s Hs; [exact Hs|].
    rewrite after_run_cons. apply IH.
    by apply unforced_event_keeps_errorData_undefined. }
  split; [exact Hopened|]. split.
  { destruct Hopener as [-> | ->]; [left|right]; reflexivity. }
  split; [exact Hlater|].
  unfold onNewDataChange, validateRuleData. rewrite Hlater.
  split; reflexivity.
Qed.

End Properties.

(** ** The page on concrete data *)

(** C1 at the loaded page: a duplicate name with a blank display name, and a
    rule without operation, pass the unforced validation. *)
Lemma validation_is_gated_witness :
  errorData loadedState = None
  ∧ onNewDataChange trimAscii toLowerAscii String.length loadedState (formRole "Admin" "")
      false loadedState = (∅, loadedState, [])
  ∧ validateRuleData loadedState (Rule.mk "" (Some "") None None None)
      false loadedState = (∅, loadedState, []).
Proof.
  split; [reflexivity|].
  apply (validation_is_gated trimAscii toLowerAscii String.length loadedState loadedState).
  reflexivity.
Defined.

(** The same input is rejected once the force flag is set. *)
Example forced_validation_rejects_the_same_input :
  result (onNewDataChange trimAscii toLowerAscii String.length loadedState
            (formRole "Admin" "") true loadedState)
  = {[ "name" := "Name already exists";
       "displayName" := "Display name is required" ]}.
Proof. vm_compute. reflexivity. Qed.

(** C2 at the scenario of the specification: "Admin" against the loaded
    role "admin". *)
Lemma blank_or_duplicate_name_is_rejected_witness :
  (is_Some (errorData adminOnlyState) ∨ true = true)
  ∧ (trimAscii "Admin" = ""
     ∨ ∃ item, item ∈ roles adminOnlyState
               ∧ toLowerAscii (Role.name item) = toLowerAscii "Admin")
  ∧ ∃ msg,
      result (onNewDataChange trimAscii toLowerAscii String.length adminOnlyState
                (formRole "Admin" "X") true adminOnlyState) !! "name"
        = Some msg
      ∧ msg ≠ ""
      ∧ msg = if decide (trimAscii "Admin" = "")
              then "Name is required" else "Name already exists".
Proof.
  assert (∃ item, item ∈ roles adminOnlyState
                  ∧ toLowerAscii (Role.name item) = toLowerAscii "Admin")
    as Hdup.
  { exists adminRole. split; [apply list_elem_of_here|reflexivity]. }
  split; [right; reflexivity|]. split; [right; exact Hdup|].
  apply (blank_or_duplicate_name_is_rejected trimAscii toLowerAscii String.length
           adminOnlyState adminOnlyState (formRole "Admin" "X") true).
  - right. reflexivity.
  - right. exact Hdup.
Defined.

Example scenario_admin :
  result (onNewDataChange trimAscii toLowerAscii String.length adminOnlyState
            (formRole "Admin" "X") true adminOnlyState)
  = {[ "name" := "Name already exists" ]}.
Proof. vm_compute. reflexivity. Qed.

Example blank_name :
  result (onNewDataChange trimAscii toLowerAscii String.length adminOnlyState
            (formRole "   " "X") true adminOnlyState)
  = {[ "name" := "Name is required" ]}.
Proof. vm_compute. reflexivity. Qed.

(** C3 at the admin policy: deleting [updateTags] also removes [denyTags],
    which has the same operation under another name. *)
Lemma delete_removes_every_rule_of_the_operation_witness :
  currentPolicy loadedState = Some adminPolicy
  ∧ ∃ rs,
      deleteRule loadedState updateTags loadedState
        = (tt, loadedState,
           [Call (UpdatePolicy
                    (PolicyUpdate.mk (Some (Policy.name adminPolicy))
                       (Some (Policy.policyType adminPolicy)) (Some rs)))])
      ∧ rs = filter
               (λ rule, Rule.operation rule ≠ Rule.operation updateTags)
               (Policy.rules adminPolicy)
      ∧ (∀ rule, rule ∈ rs ↔
                 rule ∈ Policy.rules adminPolicy
                 ∧ Rule.operation rule ≠ Rule.operation updateTags)
      ∧ rs `sublist_of` Policy.rules adminPolicy.
Proof.
  split; [reflexivity|].
  apply (delete_removes_every_rule_of_the_operation loadedState loadedState
           updateTags adminPolicy).
  reflexivity.
Defined.

Example delete_updateTags :
  calls (effects (deleteRule loadedState updateTags loadedState))
  = [UpdatePolicy
       (PolicyUpdate.mk (Some "admin-policy") (Some "AccessControl")
          (Some [updateOwner]))].
Proof. vm_compute. reflexivity. Qed.

(** C4 at the admin policy: the switch of [updateOwner]. *)
Lemma toggle_replaces_the_named_rule_witness :
  currentPolicy loadedState = Some adminPolicy
  ∧ updateOwner ∈ Policy.rules adminPolicy
  ∧ ∃ rs,
      onRuleUpdate loadedState (toggled updateOwner) loadedState
        = (tt, loadedState,
           [Call (UpdatePolicy
                    (PolicyUpdate.mk (Some (Policy.name adminPolicy))
                       (Some (Policy.policyType adminPolicy)) (Some rs)))])
      ∧ length rs = length (Policy.rules adminPolicy)
      ∧ (∀ i rule, Policy.rules adminPolicy !! i = Some rule →
           rs !! i = Some (if decide (Rule.name rule = Rule.name updateOwner)
                           then toggled updateOwner else rule))
      ∧ toggled updateOwner ∈ rs
      ∧ Rule.name (toggled updateOwner) = Rule.name updateOwner
      ∧ Rule.operation (toggled updateOwner) = Rule.operation updateOwner
      ∧ Rule.allow (toggled updateOwner) = Rule.allow updateOwner
      ∧ Rule.userRoleAttr (toggled updateOwner)
        = Rule.userRoleAttr updateOwner
      ∧ Rule.enabled (toggled updateOwner)
        = Some (negb (truthy_bool (Rule.enabled updateOwner))).
Proof.
  assert (updateOwner ∈ Policy.rules adminPolicy) as Hin.
  { apply list_elem_of_further, list_elem_of_here. }
  split; [reflexivity|]. split; [exact Hin|].
  apply (toggle_replaces_the_named_rule loadedState loadedState updateOwner
           adminPolicy); [reflexivity|exact Hin].
Defined.

Example toggle_updateOwner :
  calls (effects (dispatchAscii (RuleSwitchClicked updateOwner) loadedState))
  = [UpdatePolicy
       (PolicyUpdate.mk (Some "admin-policy") (Some "AccessControl")
          (Some [updateTags;
                 Rule.mk "admin-policy-UpdateOwner" (Some "UpdateOwner")
                   (Some true) (Some true) (Some "admin");
                 denyTags]))].
Proof. vm_compute. reflexivity. Qed.

(** C5 at a blank name. *)
Lemma invalid_role_is_not_submitted_witness :
  result (onNewDataChange trimAscii toLowerAscii String.length loadedState
            (formRole "  " "Blank") true loadedState) ≠ ∅
  ∧ calls (effects (createNewRole trimAscii toLowerAscii String.length loadedState
                      (formRole "  " "Blank") loadedState)) = [].
Proof.
  assert (result (onNewDataChange trimAscii toLowerAscii String.length loadedState
                    (formRole "  " "Blank") true loadedState) ≠ ∅) as Hbad.
  { intros H. apply (f_equal (λ m : FormErrorData, m !! "name")) in H.
    vm_compute in H. discriminate H. }
  split; [exact Hbad|].
  apply (invalid_role_is_not_submitted trimAscii toLowerAscii String.length loadedState
           loadedState (formRole "  " "Blank")).
  exact Hbad.
Defined.

Example valid_role_is_submitted :
  calls (effects (createNewRole trimAscii toLowerAscii String.length loadedState
                    (formRole "curator" "Curator") loadedState))
  = [CreateRole (Some "") "curator" (Some "Curator")].
Proof. vm_compute. reflexivity. Qed.

(** C6 as stated fails: saving a blank role from the open form issues no
    call, so nothing settles, and the form stays open. *)
Lemma invalid_role_leaves_the_form_open :
  let opened := after (dispatchAscii AddRoleClicked loadedState) in
  let saved := dispatchAscii (RoleFormSaved (formRole "" "")) opened in
  isAddingRole opened = true
  ∧ effects saved = []
  ∧ isAddingRole (after saved) = true
  ∧ errorData (after saved)
    = Some {[ "name" := "Name is required";
              "displayName" := "Display name is required" ]}.
Proof. vm_compute. repeat split; reflexivity. Qed.

(** C7 as stated fails: a failed fetch of the role list writes the page
    error besides clearing the loading flag, and a failed fetch of a role by
    name shows no toast and writes the page error. *)
Lemma failed_role_fetches_write_the_page_error :
  let loading := after (fetchRoles loadedState) in
  let list := fetchRoles_settled (Rejected networkError) loading in
  let byName :=
    fetchCurrentRole_settled notFound loadedState (Rejected notFoundError)
      loading in
  error loading = ""
  ∧ error (after list) = "Error while getting roles"
  ∧ after list ≠ after (setIsLoading false loading)
  ∧ toasts (effects byName) = []
  ∧ error (after byName) = "No data found"
  ∧ after byName ≠ after (setIsLoading false loading).
Proof.
  cbv zeta. repeat split; try reflexivity.
  - intros H. apply (f_equal error) in H. vm_compute in H. discriminate H.
  - intros H. apply (f_equal error) in H. vm_compute in H. discriminate H.
Qed.


(** The click that a comparison by value would miss: the current role came
    from a fetch by name, and the user clicks its entry in the list, which
    has the same properties in another object.  The policy is asked for
    again; a click on the object that is current asks for nothing. *)
Example click_on_the_list_entry_of_a_refetched_role :
  let refetched := after (setCurrentRole (Some adminRoleByName) loadedState) in
  Role.name adminRoleByName = Role.name adminRole
  ∧ Role.policy adminRoleByName = Role.policy adminRole
  ∧ effects (dispatchAscii (RoleClicked adminRole) refetched)
    = [Call (GetPolicy (Some "p-admin") policyFields)]
  ∧ currentRole (after (dispatchAscii (RoleClicked adminRole) refetched))
    = Some adminRole
  ∧ effects (dispatchAscii (RoleClicked adminRole) loadedState) = [].
Proof. vm_compute. repeat split; reflexivity. Qed.

(** C10 at the add-role form: changes, a tab click, a failed policy fetch
    and a cancel leave [errorData] undefined. *)
Lemma open_form_validates_nothing_until_saved_witness :
  let evs :=
    [RoleFormChanged (formRole "" ""); TabClicked 2;
     RoleFormChanged (formRole "Admin" ""); PolicyFetched (Rejected networkError);
     RoleFormCancelled] in
  (AddRoleClicked = AddRoleClicked ∨ AddRoleClicked = AddRuleClicked)
  ∧ Forall (λ ev, is_forced_validation ev = false) evs
  ∧ let opened := after (dispatchAscii AddRoleClicked loadedState) in
    let later := after (runAscii evs opened) in
    errorData opened = None
    ∧ (isAddingRole opened = true ∨ isAddingRule opened = true)
    ∧ errorData later = None
    ∧ result (onNewDataChange trimAscii toLowerAscii String.length later
                (formRole "Admin" "") false later) = ∅
    ∧ result (validateRuleData later (Rule.mk "" (Some "") None None None)
                false later) = ∅.
Proof.
  cbv zeta.
  assert (Forall (λ ev, is_forced_validation ev = false)
            [RoleFormChanged (formRole "" ""); TabClicked 2;
             RoleFormChanged (formRole "Admin" "");
             PolicyFetched (Rejected networkError); RoleFormCancelled])
    as Hevs by (repeat constructor).
  split; [left; reflexivity|]. split; [exact Hevs|].
  apply (open_form_validates_nothing_until_saved trimAscii toLowerAscii String.length
           noPatch notFound loadedState AddRoleClicked _
           (formRole "Admin" "") (Rule.mk "" (Some "") None None None)).
  - left. reflexivity.
  - exact Hevs.
Defined.

(** C10 as stated fails: a save of a valid role records an empty error
    state, and from then on the unforced validation evaluates the rules,
    though no non-empty error state was ever recorded. *)
Lemma empty_error_state_opens_the_gate :
  let opened := after (dispatchAscii AddRoleClicked loadedState) in
  let saved :=
    after (dispatchAscii (RoleFormSaved (formRole "curator" "Curator"))
             opened) in
  errorData opened = None
  ∧ errorData saved = Some ∅
  ∧ isAddingRole saved = true
  ∧ result (onNewDataChange trimAscii toLowerAscii String.length saved (formRole "" "X")
              false saved)
    = {[ "name" := "Name is required" ]}
  ∧ result (onNewDataChange trimAscii toLowerAscii String.length saved (formRole "" "X")
              false saved) ≠ ∅.
Proof.
  cbv zeta. repeat split; try (vm_compute; reflexivity).
  intros H. apply (f_equal (λ m : FormErrorData, m !! "name")) in H.
  vm_compute in H. discriminate H.
Qed.

(** ** Further properties of the validation *)

(** The error under each key of the role validation, when it executes. *)
Lemma role_errors_lookup (trim toLower : string → string)
    (codeUnits : string → nat)
    (rendered st : PageState) (data : Role.t) (forceSet : bool) :
  is_Some (errorData rendered) ∨ forceSet = true →
  let errData :=
    result (onNewDataChange trim toLower codeUnits rendered data forceSet st) in
  errData !! "name"
    = (if negb (truthy (trim (Role.name data)))
       then Some "Name is required"
       else if bool_decide (is_Some
                 (List.find
                    (λ item, String.eqb (toLower (Role.name item))
                                        (toLower (Role.name data)))
                    (roles rendered)))
       then Some "Name already exists"
       else if (codeUnits (Role.name data) <? 1)
               || (128 <? codeUnits (Role.name data))
       then Some "Name size must be between 1 and 128"
       else None)
  ∧ errData !! "displayName"
    = match Role.displayName data with
      | Some displayName =>
          if negb (truthy (trim displayName))
          then Some "Display name is required"
          else if (codeUnits displayName <? 1)
                  || (128 <? codeUnits displayName)
          then Some "Display name size must be between 1 and 128"
          else None
      | None => Some "Display name is required"
      end
  ∧ ∀ key, key ≠ "name" → key ≠ "displayName" → errData !! key = None.
Proof.
  intros Hgate. unfold onNewDataChange.
  rewrite (gate_open _ _ Hgate). cbv zeta. rewrite result_seq_ret.
  split; [|split].
  - destruct (Role.displayName data); repeat case_match;
      by rewrite ?(lookup_insert_ne _ "displayName"),
                 ?lookup_insert_eq, ?lookup_empty.
  - destruct (Role.displayName data); repeat case_match;
      by rewrite ?lookup_insert_eq, ?(lookup_insert_ne _ "name"),
                 ?lookup_insert_eq, ?lookup_empty.
  - intros key Hname Hdisplay.
    destruct (Role.displayName data); repeat case_match;
      by rewrite ?lookup_insert_ne, ?lookup_empty.
Qed.

Lemma find_is_None {A} (f : A → bool) (l : list A) :
  List.find f l = None ↔ ∀ x, x ∈ l → f x = false.
Proof.
  split.
  - intros H x Hx. apply (find_none f l H). by apply list_elem_of_In.
  - intros H. destruct (List.find f l) as [x|] eqn:E; [|done].
    apply find_some in E as [Hin Hf].
    apply list_elem_of_In, H in Hin. congruence.
Qed.

Lemma truthy_true (s : string) : truthy s = true ↔ s ≠ "".
Proof.
  unfold truthy. destruct (String.eqb_spec s ""); simpl; split; congruence.
Qed.

Lemma no_duplicate_iff (toLower : string → string) (l : list Role.t)
    (name : string) :
  bool_decide (is_Some
    (List.find (λ item, String.eqb (toLower (Role.name item)) (toLower name))
       l)) = false
  ↔ ∀ item, item ∈ l → toLower (Role.name item) ≠ toLower name.
Proof.
  rewrite bool_decide_eq_false, <- eq_None_not_Some, find_is_None.
  split; intros H item Hin; specialize (H item Hin).
  - by apply String.eqb_neq.
  - by apply String.eqb_neq.
Qed.

Lemma no_error_in_chain {A} (b1 b2 : bool) (x y : A) :
  (if negb b1 then Some x else if b2 then Some y else None) = None
  ↔ b1 = true ∧ b2 = false.
Proof. destruct b1, b2; cbn; split; intros; destruct_and?; done. Qed.

Lemma size_ok_iff (n : nat) :
  (n <? 1) || (128 <? n) = false ↔ 1 ≤ n ≤ 128.
Proof.
  rewrite orb_false_iff, !Nat.ltb_ge. lia.
Qed.

(** X1.  When role validation executes, it returns the empty mapping
    exactly for the candidates whose name is not blank after trimming,
    differs up to case from the name of every loaded role and has a [length]
    of 1 to 128 code units, and whose display name is present, not blank
    after trimming and has a [length] of 1 to 128 code units. *)
Theorem role_validation_passes_iff (trim toLower : string → string)
    (codeUnits : string → nat)
    (rendered st : PageState) (data : Role.t) (forceSet : bool) :
  is_Some (errorData rendered) ∨ forceSet = true →
  result (onNewDataChange trim toLower codeUnits rendered data forceSet st) = ∅
  ↔ trim (Role.name data) ≠ ""
    ∧ (∀ item, item ∈ roles rendered →
         toLower (Role.name item) ≠ toLower (Role.name data))
    ∧ 1 ≤ codeUnits (Role.name data) ≤ 128
    ∧ ∃ displayName,
        Role.displayName data = Some displayName
        ∧ trim displayName ≠ ""
        ∧ 1 ≤ codeUnits displayName ≤ 128.
Proof.
  intros Hgate.
  destruct (role_errors_lookup trim toLower codeUnits rendered st data forceSet Hgate)
    as (Hname & Hdisplay & Hother).
  set (errData := result _) in *.
  rewrite <- truthy_true, <- no_duplicate_iff, <- size_ok_iff.
  split.
  - intros Hempty. rewrite Hempty, lookup_empty in Hname, Hdisplay.
    split; [|split; [|split]].
    + by destruct (truthy (trim (Role.name data))).
    + destruct (truthy (trim (Role.name data))); [|done].
      by destruct (bool_decide _).
    + destruct (truthy (trim (Role.name data))); [|done].
      destruct (bool_decide _); [done|].
      by destruct (_ || _).
    + destruct (Role.displayName data) as [d|]; [|done].
      exists d. split; [done|].
      rewrite <- truthy_true, <- size_ok_iff.
      by apply (no_error_in_chain _ _ "Display name is required"
                  "Display name size must be between 1 and 128").
  - intros (Htrim & Hdup & Hsize & d & Hd & Hdtrim & Hdsize).
    apply truthy_true in Hdtrim. apply size_ok_iff in Hdsize.
    rewrite Htrim, Hdup, Hsize in Hname.
    rewrite Hd, Hdtrim, Hdsize in Hdisplay.
    apply map_eq. intros key. rewrite lookup_empty.
    destruct (decide (key = "name")) as [->|]; [done|].
    destruct (decide (key = "displayName")) as [->|]; [done|].
    by apply Hother.
Qed.

(** X2.  When role validation executes on a name that is not blank and
    duplicates no loaded role, the name is accepted (no error under "name")
    exactly when its [length] is 1 to 128 code units, and is otherwise
    answered with the size message: 128 code units pass, 129 do not. *)
Theorem name_size_bound (trim toLower : string → string)
    (codeUnits : string → nat)
    (rendered st : PageState) (data : Role.t) (forceSet : bool) :
  is_Some (errorData rendered) ∨ forceSet = true →
  trim (Role.name data) ≠ "" →
  (∀ item, item ∈ roles rendered →
     toLower (Role.name item) ≠ toLower (Role.name data)) →
  result (onNewDataChange trim toLower codeUnits rendered data forceSet st) !! "name"
  = if decide (1 ≤ codeUnits (Role.name data) ≤ 128) then None
    else Some "Name size must be between 1 and 128".
Proof.
  intros Hgate Htrim Hdup.
  destruct (role_errors_lookup trim toLower codeUnits rendered st data forceSet Hgate)
    as (Hname & _ & _).
  rewrite Hname. apply truthy_true in Htrim. apply no_duplicate_iff in Hdup.
  rewrite Htrim, Hdup. cbn [negb].
  destruct (decide (1 ≤ codeUnits (Role.name data) ≤ 128)) as [H|H].
  - apply size_ok_iff in H. by rewrite H.
  - rewrite <- size_ok_iff in H. by destruct (_ || _).
Qed.

(** X3.  When role validation executes, the display name is judged on its
    own, whatever the name is: there is no error under "displayName"
    exactly when the display name is present, not blank after trimming and
    has a [length] of 1 to 128 code units; a missing or blank one is
    answered with 'Display name is required'. *)
Theorem display_name_is_judged_alone (trim toLower : string → string)
    (codeUnits : string → nat)
    (rendered st : PageState) (data : Role.t) (forceSet : bool) :
  is_Some (errorData rendered) ∨ forceSet = true →
  let errData :=
    result (onNewDataChange trim toLower codeUnits rendered data forceSet st) in
  (errData !! "displayName" = None
   ↔ ∃ displayName,
       Role.displayName data = Some displayName
       ∧ trim displayName ≠ ""
       ∧ 1 ≤ codeUnits displayName ≤ 128)
  ∧ (Role.displayName data = None
     ∨ (∃ displayName, Role.displayName data = Some displayName
                       ∧ trim displayName = "") →
     errData !! "displayName" = Some "Display name is required").
Proof.
  intros Hgate errData.
  destruct (role_errors_lookup trim toLower codeUnits rendered st data forceSet Hgate)
    as (_ & Hdisplay & _).
  fold errData in Hdisplay. rewrite Hdisplay. clear Hdisplay. split.
  - split.
    + destruct (Role.displayName data) as [d|]; [|done].
      intros H. exists d. split; [done|].
      rewrite <- truthy_true, <- size_ok_iff.
      by apply (no_error_in_chain _ _ "Display name is required"
                  "Display name size must be between 1 and 128").
    + intros (d & -> & Htrim & Hsize).
      apply truthy_true in Htrim. apply size_ok_iff in Hsize.
      by rewrite Htrim, Hsize.
  - intros [->|(d & -> & Hblank)]; [done|].
    apply truthy_false in Hblank. by rewrite Hblank.
Qed.

(** X4.  Once an error state is recorded, validation without the force
    flag does what validation with the flag does, for roles and for rules:
    it returns the same mapping, records it in [errorData], writes no other
    cell and shows or calls nothing. *)
Theorem recorded_error_state_makes_validation_live
    (trim toLower : string → string)
    (codeUnits : string → nat) (rendered st : PageState)
    (role : Role.t) (rule : Rule.t) :
  is_Some (errorData rendered) →
  let onRole := onNewDataChange trim toLower codeUnits rendered role false st in
  let onRule := validateRuleData rendered rule false st in
  onRole = onNewDataChange trim toLower codeUnits rendered role true st
  ∧ onRule = validateRuleData rendered rule true st
  ∧ after onRole = after (setErrorData (Some (result onRole)) st)
  ∧ after onRule = after (setErrorData (Some (result onRule)) st)
  ∧ effects onRole = [] ∧ effects onRule = [].
Proof.
  intros Hsome. cbv zeta. unfold onNewDataChange, validateRuleData.
  rewrite (bool_decide_eq_true_2 _ Hsome). cbn [orb]. cbv zeta.
  repeat split.
Qed.

(** ** Further properties of the rule mutations *)

Lemma filter_all {A} (P : A → Prop) `{!∀ x, Decision (P x)} (l : list A) :
  (∀ x, x ∈ l → P x) → filter P l = l.
Proof.
  induction l as [|x l IH]; intros Hall; [done|].
  rewrite filter_cons_True by (apply Hall; left).
  f_equal. apply IH. intros y Hy. apply Hall. by right.
Qed.

Lemma filter_again {A} (P : A → Prop) `{!∀ x, Decision (P x)} (l : list A) :
  filter P (filter P l) = filter P l.
Proof.
  apply filter_all. intros x Hx. by apply list_elem_of_filter in Hx as [? _].
Qed.

Lemma map_unless_named (data : Rule.t) (l : list Rule.t) :
  (∀ rule, rule ∈ l → Rule.name rule = Rule.name data → rule = data) →
  map (λ rule, if String.eqb (Rule.name rule) (Rule.name data)
               then data else rule) l = l.
Proof.
  induction l as [|x l IH]; intros H; [done|].
  cbn [map]. f_equal.
  - destruct (String.eqb_spec (Rule.name x) (Rule.name data)) as [He|];
      [|done].
    symmetry. apply H; [left|done].
  - apply IH. intros rule Hin. apply H. by right.
Qed.

Lemma values_length_empty : (values_length ∅ =? 0)%nat = true.
Proof. by apply Nat.eqb_eq, values_length_0. Qed.

Lemma values_length_insert (key msg : string) (m : FormErrorData) :
  (values_length (<[key := msg]> m) =? 0)%nat = false.
Proof. apply Nat.eqb_neq. rewrite values_length_0. apply insert_non_empty. Qed.

(** Unfolds [createRule] down to the test on the operation. *)
Ltac run_createRule :=
  unfold createRule, validateRuleData;
  rewrite orb_true_r; cbv zeta;
  unfold mbind, Handler_bind, mret, Handler_ret, setErrorData, modify, call,
    emit.

Lemma map_switch_back (r : Rule.t) (l : list Rule.t) :
  (∀ rule, rule ∈ l → Rule.name rule = Rule.name r → rule = r) →
  map (λ rule, if String.eqb (Rule.name rule) (Rule.name r)
               then r else rule)
      (map (λ rule, if String.eqb (Rule.name rule) (Rule.name (toggled r))
                    then toggled r else rule) l)
  = l.
Proof.
  induction l as [|x l IH]; intros Hunique; [done|].
  cbn [map]. f_equal.
  - cbn [toggled Rule.name].
    destruct (String.eqb_spec (Rule.name x) (Rule.name r)) as [He|Hne].
    + cbn [toggled Rule.name]. rewrite String.eqb_refl.
      symmetry. apply Hunique; [left|done].
    + by apply String.eqb_neq in Hne as ->.
  - apply IH. intros rule Hin. apply Hunique. by right.
Qed.

(** X5.  [createRule] submits something exactly when the operation of the
    form data is truthy and a policy is held.  It always records the outcome
    of the forced validation: the empty mapping, or 'Operation is required.'
    under "operation".  It never closes the form itself and shows no
    toast. *)
Theorem rule_creation_needs_an_operation (rendered st : PageState)
    (data : Rule.t) :
  let created := createRule rendered data st in
  (calls (effects created) ≠ []
   ↔ truthy_string (Rule.operation data) = true
     ∧ is_Some (currentPolicy rendered))
  ∧ errorData (after created)
    = Some (if truthy_string (Rule.operation data) then ∅
            else {[ "operation" := "Operation is required." ]})
  ∧ isAddingRule (after created) = isAddingRule st
  ∧ toasts (effects created) = [].
Proof.
  cbv zeta. run_createRule.
  destruct (truthy_string (Rule.operation data)); cbn [negb].
  - rewrite values_length_empty.
    destruct (currentPolicy rendered) as [p|].
    + repeat split; eauto; done.
    + repeat split; try done. intros [_ [? ?]]. done.
  - rewrite values_length_insert.
    repeat split; try done. intros [? _]. done.
Qed.

(** X6.  With policy [p] held and a truthy operation, [createRule] submits
    the rules of [p], unchanged and in their order, followed by one new
    rule: it is named after the policy and the operation, keeps the
    operation, [allow] and [enabled] of the form data and carries the name
    of the current role. *)
Theorem rule_creation_appends_one_rule (rendered st : PageState)
    (data : Rule.t) (p : Policy.t) (operation : string) :
  currentPolicy rendered = Some p →
  Rule.operation data = Some operation →
  operation ≠ "" →
  let newRule := createdRule p (currentRole rendered) data in
  effects (createRule rendered data st)
    = [Call (UpdatePolicy (replacement p (Policy.rules p ++ [newRule])))]
  ∧ Rule.name newRule = Policy.name p +:+ "-" +:+ operation
  ∧ Rule.operation newRule = Some operation
  ∧ Rule.allow newRule = Rule.allow data
  ∧ Rule.enabled newRule = Rule.enabled data
  ∧ Rule.userRoleAttr newRule = Role.name <$> currentRole rendered.
Proof.
  intros Hp Hop Hne. cbv zeta. run_createRule.
  rewrite Hp, Hop.
  assert (truthy_string (Some operation) = true) as ->.
  { cbn [truthy_string]. by destruct (String.eqb_spec operation ""). }
  cbn [negb]. rewrite values_length_empty.
  unfold createdRule, replacement. rewrite Hop.
  repeat split; reflexivity.
Qed.

(** X7.  Creating a rule and deleting it again gives back the rules one
    started from, provided no rule of the policy had the operation: with
    the policy that [createRule] submitted held, [deleteRule] on the created
    rule submits the rules of the policy before the creation. *)
Theorem created_rule_can_be_deleted_again (rendered later st st' : PageState)
    (data : Rule.t) (p : Policy.t) :
  currentPolicy rendered = Some p →
  truthy_string (Rule.operation data) = true →
  (∀ rule, rule ∈ Policy.rules p →
     Rule.operation rule ≠ Rule.operation data) →
  let newRule := createdRule p (currentRole rendered) data in
  currentPolicy later
    = Some (Policy.mk (Policy.name p) (Policy.policyType p)
              (Policy.rules p ++ [newRule])) →
  effects (createRule rendered data st)
    = [Call (UpdatePolicy (replacement p (Policy.rules p ++ [newRule])))]
  ∧ effects (deleteRule later newRule st')
    = [Call (UpdatePolicy (replacement p (Policy.rules p)))].
Proof.
  intros Hp Hop Hfresh newRule Hlater. split.
  - run_createRule. rewrite Hp, Hop. cbn [negb].
    rewrite values_length_empty. reflexivity.
  - unfold deleteRule. rewrite Hlater. cbn. unfold replacement.
    do 4 f_equal. rewrite filter_app, filter_all by done.
    rewrite filter_cons_False by (intros H; by apply H).
    by rewrite app_nil_r.
Qed.

(** X8.  Switching a rule twice gives back the rules one started from,
    provided [enabled] of the rule is a boolean and no other rule has its
    name: with the policy that the first switch submitted held, the second
    switch submits the rules of the policy before the first. *)
Theorem toggling_twice_restores_the_rules (rendered later st st' : PageState)
    (r : Rule.t) (p : Policy.t) (enabled : bool) :
  currentPolicy rendered = Some p →
  Rule.enabled r = Some enabled →
  (∀ rule, rule ∈ Policy.rules p → Rule.name rule = Rule.name r →
     rule = r) →
  ∃ rs,
    effects (onRuleUpdate rendered (toggled r) st)
      = [Call (UpdatePolicy (replacement p rs))]
    ∧ toggled (toggled r) = r
    ∧ (currentPolicy later
         = Some (Policy.mk (Policy.name p) (Policy.policyType p) rs) →
       effects (onRuleUpdate later (toggled (toggled r)) st')
         = [Call (UpdatePolicy (replacement p (Policy.rules p)))]).
Proof.
  intros Hp Henabled Hunique.
  assert (toggled (toggled r) = r) as Htwice.
  { destruct r as [n o a e u]. cbn in Henabled. subst e.
    unfold toggled. cbn. by rewrite negb_involutive. }
  eexists. split; [|split; [exact Htwice|]].
  - unfold onRuleUpdate. rewrite Hp. reflexivity.
  - intros Hlater. unfold onRuleUpdate. rewrite Hlater, Htwice. cbn.
    unfold replacement. do 4 f_equal.
    f_equal. by apply (map_switch_back r).
Qed.

(** X9.  With policy [p] held, [onRuleUpdate] submits a list with the same
    rule names at the same positions, whatever rule it is given; when no
    rule of the policy has the name of the given rule, the list submitted is
    the list held: a rule is never added by an update. *)
Theorem rule_update_keeps_the_names (rendered st : PageState)
    (data : Rule.t) (p : Policy.t) :
  currentPolicy rendered = Some p →
  ∃ rs,
    effects (onRuleUpdate rendered data st)
      = [Call (UpdatePolicy (replacement p rs))]
    ∧ map Rule.name rs = map Rule.name (Policy.rules p)
    ∧ ((∀ rule, rule ∈ Policy.rules p → Rule.name rule ≠ Rule.name data) →
       rs = Policy.rules p).
Proof.
  intros Hp. eexists. split; [|split].
  - unfold onRuleUpdate. rewrite Hp. reflexivity.
  - rewrite map_map. apply map_ext. intros rule.
    by destruct (String.eqb_spec (Rule.name rule) (Rule.name data)).
  - intros Hnone. apply map_unless_named.
    intros rule Hin Hname. by apply Hnone in Hin.
Qed.

(** X10.  With policy [p] held, [deleteRule] never submits more rules than
    are held; it submits the list held when no rule has the operation of
    the given rule; and deleting the same rule again, with the submitted
    policy held, submits the same list once more. *)
Theorem deletion_is_idempotent (rendered later st st' : PageState)
    (r : Rule.t) (p : Policy.t) :
  currentPolicy rendered = Some p →
  ∃ rs,
    effects (deleteRule rendered r st)
      = [Call (UpdatePolicy (replacement p rs))]
    ∧ length rs ≤ length (Policy.rules p)
    ∧ ((∀ rule, rule ∈ Policy.rules p →
          Rule.operation rule ≠ Rule.operation r) →
       rs = Policy.rules p)
    ∧ (currentPolicy later
         = Some (Policy.mk (Policy.name p) (Policy.policyType p) rs) →
       effects (deleteRule later r st')
         = [Call (UpdatePolicy (replacement p rs))]).
Proof.
  intros Hp. eexists. split; [|split; [|split]].
  - unfold deleteRule. rewrite Hp. reflexivity.
  - apply length_filter.
  - intros Hnone. by apply filter_all.
  - intros Hlater. unfold deleteRule. rewrite Hlater. cbn.
    unfold replacement. by rewrite filter_again.
Qed.

(** X11.  With no policy held, an update and a deletion still call the
    endpoint, with a replacement policy whose name, type and rules are all
    undefined, while a creation calls nothing. *)
Theorem rule_mutations_without_policy (rendered st : PageState)
    (data : Rule.t) :
  currentPolicy rendered = None →
  effects (onRuleUpdate rendered data st)
    = [Call (UpdatePolicy (PolicyUpdate.mk None None None))]
  ∧ effects (deleteRule rendered data st)
    = [Call (UpdatePolicy (PolicyUpdate.mk None None None))]
  ∧ effects (createRule rendered data st) = [].
Proof.
  intros Hp. split; [|split].
  - unfold onRuleUpdate. rewrite Hp. reflexivity.
  - unfold deleteRule. rewrite Hp. reflexivity.
  - run_createRule. rewrite Hp.
    destruct (truthy_string (Rule.operation data)); cbn [negb].
    + rewrite values_length_empty. reflexivity.
    + rewrite values_length_insert. reflexivity.
Qed.

(** ** Further properties of the page as a state machine *)

(** An invariant of [dispatch] is an invariant of [run]. *)
Lemma run_invariant (trim toLower : string → string)
    (codeUnits : string → nat)
    (compare : option Role.t → RoleDraft.t → list PatchOperation.t)
    (ERROR404 : string) (allowed : Event → Prop) (I : PageState → Prop) :
  (∀ ev st, allowed ev → I st →
     I (after (dispatch trim toLower codeUnits compare ERROR404 ev st))) →
  ∀ evs st, Forall allowed evs → I st →
    I (after (run trim toLower codeUnits compare ERROR404 evs st)).
Proof.
  intros Hstep evs. induction evs as [|ev evs IH]; intros st Hall Hst;
    [exact Hst|].
  rewrite after_run_cons. inversion_clear Hall. apply IH; [done|].
  by apply Hstep.
Qed.

Lemma dispatch_keeps_error (trim toLower : string → string)
    (codeUnits : string → nat)
    (compare : option Role.t → RoleDraft.t → list PatchOperation.t)
    (ERROR404 : string) (ev : Event) (st : PageState) :
  ERROR404 ≠ "" → error st ≠ "" →
  error (after (dispatch trim toLower codeUnits compare ERROR404 ev st)) ≠ "".
Proof.
  intros H404 Hst.
  destruct ev; unfold dispatch; try (run_handler; done).
  - (* Mounted *)
    run_handler. destruct (currentRole st); done.
  - (* RoleClicked *)
    run_handler. destruct (bool_decide _ || _); done.
  - (* DescriptionSaved *)
    run_branching. destruct (bool_decide _); run_handler; done.
  - (* RoleFormChanged *)
    run_branching. destruct (bool_decide _ || false); run_handler; done.
  - (* RoleFormSaved *)
    run_branching. run_handler.
    match goal with |- context [(values_length ?m =? 0)%nat] =>
      destruct (values_length m =? 0)%nat end; done.
  - (* RuleFormChanged *)
    run_branching. destruct (bool_decide _ || false); run_handler; done.
  - (* RuleFormSaved *)
    run_branching. run_handler.
    match goal with |- context [(values_length ?m =? 0)%nat] =>
      destruct (values_length m =? 0)%nat end;
      try destruct (currentPolicy st); done.
  - (* RuleDeleteConfirmed *)
    destruct (RuleDialog.rule (deletingRule st)); run_handler; done.
  - (* PolicyFetched *)
    destruct res; run_handler; done.
  - (* RolesFetched *)
    destruct res as [[|role rest]|?]; run_handler;
      destruct (bool_decide _ || _); try destruct (currentRole st); done.
  - (* RoleCreated *)
    destruct res as [[?|]|?]; run_handler; done.
  - (* RoleFetched *)
    run_branching.
    destruct res as [[?|]|?];
      try destruct (length (roles closure) <=? 0)%nat;
      try destruct (truthy_number _);
      run_handler;
      destruct (bool_decide _ || _); try destruct (currentRole st); done.
  - (* RoleUpdated *)
    destruct res as [[?|]|?]; run_branching; run_handler; done.
  - (* PolicyUpdatedOnCreate *)
    destruct res; run_handler; done.
  - (* PolicyUpdatedOnEdit *)
    destruct res; run_handler; done.
  - (* PolicyUpdatedOnDelete *)
    destruct res; run_handler; done.
Qed.

(** X12.  The error page is final.  A failed fetch of the role list puts
    the error placeholder in place of the whole page, and whatever events
    follow, the page shows the placeholder and none of the four modals,
    provided the constant [ERROR404] is not the empty string. *)
Theorem error_page_is_final (trim toLower : string → string)
    (codeUnits : string → nat)
    (compare : option Role.t → RoleDraft.t → list PatchOperation.t)
    (ERROR404 : string) (st : PageState) (err : AxiosError.t)
    (evs : list Event) :
  ERROR404 ≠ "" →
  let final :=
    after (run trim toLower codeUnits compare ERROR404
             (RolesFetched (Rejected err) :: evs) st) in
  error final ≠ ""
  ∧ pageBody final = ErrorPlaceHolder
  ∧ dialogs final = [].
Proof.
  intros H404 final.
  assert (error final ≠ "") as Herror.
  { subst final. rewrite after_run_cons.
    apply (run_invariant trim toLower codeUnits compare ERROR404 (λ _, True)
             (λ s, error s ≠ "")).
    - intros ev s _. by apply dispatch_keeps_error.
    - by apply Forall_forall.
    - unfold dispatch, is_resolved. run_handler.
      destruct (bool_decide _ || _); try destruct (currentRole st); done. }
  split; [exact Herror|].
  apply truthy_true in Herror.
  unfold dialogs, pageBody. rewrite Herror. done.
Qed.

Lemma dispatch_keeps_server_data (trim toLower : string → string)
    (codeUnits : string → nat)
    (compare : option Role.t → RoleDraft.t → list PatchOperation.t)
    (ERROR404 : string) (ev : Event) (st : PageState) :
  brings_server_data ev = false →
  roles (after (dispatch trim toLower codeUnits compare ERROR404 ev st)) = roles st
  ∧ currentPolicy (after (dispatch trim toLower codeUnits compare ERROR404 ev st))
    = currentPolicy st.
Proof.
  intros Hev.
  destruct ev; unfold dispatch; try (run_handler; done).
  - (* Mounted *)
    run_handler. destruct (currentRole st); done.
  - (* RoleClicked *)
    run_handler. destruct (bool_decide _ || _); done.
  - (* DescriptionSaved *)
    run_branching. destruct (bool_decide _); run_handler; done.
  - (* RoleFormChanged *)
    run_branching. destruct (bool_decide _ || false); run_handler; done.
  - (* RoleFormSaved *)
    run_branching. run_handler.
    match goal with |- context [(values_length ?m =? 0)%nat] =>
      destruct (values_length m =? 0)%nat end; done.
  - (* RuleFormChanged *)
    run_branching. destruct (bool_decide _ || false); run_handler; done.
  - (* RuleFormSaved *)
    run_branching. run_handler.
    match goal with |- context [(values_length ?m =? 0)%nat] =>
      destruct (values_length m =? 0)%nat end;
      try destruct (currentPolicy st); done.
  - (* RuleDeleteConfirmed *)
    destruct (RuleDialog.rule (deletingRule st)); run_handler; done.
  - (* PolicyFetched *)
    destruct res; [discriminate Hev|]. run_handler. done.
  - (* RolesFetched *)
    destruct res; [discriminate Hev|]. run_handler.
    destruct (bool_decide _ || _); try destruct (currentRole st); done.
  - (* RoleCreated *)
    destruct res as [[?|]|?]; run_handler; done.
  - (* RoleFetched *)
    run_branching.
    destruct res as [[?|]|?];
      try destruct (length (roles closure) <=? 0)%nat;
      try destruct (truthy_number _);
      run_handler;
      destruct (bool_decide _ || _); try destruct (currentRole st); done.
  - (* RoleUpdated *)
    destruct res as [[?|]|?]; run_branching; run_handler; done.
  - (* PolicyUpdatedOnCreate *)
    destruct res; [discriminate Hev|]. run_handler. done.
  - (* PolicyUpdatedOnEdit *)
    destruct res; [discriminate Hev|]. run_handler. done.
  - (* PolicyUpdatedOnDelete *)
    destruct res; [discriminate Hev|]. run_handler. done.
Qed.

(** X13.  Nothing is updated ahead of the server.  Through any sequence of
    events in which no role list, policy fetch or policy update resolves,
    the role list and the policy held stay as they were: no click, no form
    and no failed call writes them. *)
Theorem server_data_changes_only_with_a_response
    (trim toLower : string → string)
    (codeUnits : string → nat)
    (compare : option Role.t → RoleDraft.t → list PatchOperation.t)
    (ERROR404 : string) (evs : list Event) (st : PageState) :
  Forall (λ ev, brings_server_data ev = false) evs →
  roles (after (run trim toLower codeUnits compare ERROR404 evs st)) = roles st
  ∧ currentPolicy (after (run trim toLower codeUnits compare ERROR404 evs st))
    = currentPolicy st.
Proof.
  intros Hevs.
  apply (run_invariant trim toLower codeUnits compare ERROR404
           (λ ev, brings_server_data ev = false)
           (λ s, roles s = roles st ∧ currentPolicy s = currentPolicy st));
    [|exact Hevs|done].
  intros ev s Hev [Hroles Hpolicy].
  destruct (dispatch_keeps_server_data trim toLower codeUnits compare ERROR404 ev s Hev)
    as [-> ->].
  done.
Qed.

(** X14.  After a role is created, the role that becomes current is the
    first of the list that the server returns, whatever role was created or
    was current: the create response triggers the list fetch and hides the
    modals behind the loader, and the list that arrives replaces [roles],
    makes its first role current, asks for the policy of that role and
    leaves the add-role form closed. *)
Theorem first_role_is_current_after_creation
    (trim toLower : string → string)
    (codeUnits : string → nat)
    (compare : option Role.t → RoleDraft.t → list PatchOperation.t)
    (ERROR404 : string) (st : PageState) (created role : Role.t)
    (rest : list Role.t) :
  let responded :=
    dispatch trim toLower codeUnits compare ERROR404
      (RoleCreated (Resolved (Some created))) st in
  let arrived :=
    dispatch trim toLower codeUnits compare ERROR404
      (RolesFetched (Resolved (role :: rest))) (after responded) in
  effects responded = [Call (GetRoles ["policy"; "users"])]
  ∧ dialogs (after responded) = []
  ∧ effects arrived
    = [Call (GetPolicy (EntityReference.id <$> Role.policy role)
               policyFields)]
  ∧ roles (after arrived) = role :: rest
  ∧ currentRole (after arrived) = Some role
  ∧ isAddingRole (after arrived) = false
  ∧ isLoading (after arrived) = false.
Proof.
  cbv zeta. unfold dispatch, is_resolved. run_handler.
  rewrite (bool_decide_eq_true_2 (is_Some (Some role))) by eauto.
  rewrite orb_true_r. run_handler.
  repeat split.
  unfold dialogs, pageBody. cbn [error isLoading].
  by destruct (truthy (error st)).
Qed.

(** X15.  A description that differs from the one held is sent, and when
    the update succeeds the role is fetched again under the name that the
    response carries, even when that is the name of the current role; the
    role that arrives becomes current and its policy is asked for.  When
    the role list was empty at the time of the edit, the list is asked for
    as well.  Edit mode and the loading flag end false, and no toast is
    shown. *)
Theorem description_update_refetches_the_role
    (trim toLower : string → string)
    (codeUnits : string → nat)
    (compare : option Role.t → RoleDraft.t → list PatchOperation.t)
    (ERROR404 : string) (st : PageState) (updatedHTML : string)
    (updated fetched : Role.t) :
  currentRole st ≫= Role.description ≠ Some updatedHTML →
  let flow :=
    run trim toLower codeUnits compare ERROR404
      [DescriptionSaved updatedHTML;
       RoleUpdated st (Resolved (Some updated));
       RoleFetched st (Resolved (Some fetched))] st in
  effects flow
    = [Call (UpdateRole (currentRole st ≫= Role.id)
               (compare (currentRole st)
                  (RoleDraft.mk (currentRole st) updatedHTML)));
       Call (GetRoleByName (Role.name updated) ["users"; "policy"])]
      ++ (if decide (roles st = []) then [Call (GetRoles ["policy"; "users"])]
          else [])
      ++ [Call (GetPolicy (EntityReference.id <$> Role.policy fetched)
                  policyFields)]
  ∧ currentRole (after flow) = Some fetched
  ∧ isEditable (after flow) = false
  ∧ isLoading (after flow) = false.
Proof.
  intros Hdiff. cbv zeta. cbn [run]. unfold dispatch, is_resolved.
  unfold mbind, Handler_bind. run_branching.
  rewrite (bool_decide_eq_true_2 _ Hdiff). run_handler.
  rewrite ?orb_true_r. run_handler.
  destruct (roles st) as [|r0 rs0]; cbn [length Nat.leb];
    run_handler;
    rewrite (bool_decide_eq_true_2 (is_Some (Some fetched))) by eauto;
    rewrite orb_true_r; run_handler.
  - rewrite decide_True by done. repeat split.
  - rewrite decide_False by done. repeat split.
Qed.

(** X17.  The two tabs are never both active; a click on the Policy tab (1)
    or on the Users tab (2) makes that tab the active one and the other
    inactive, and writes no other cell. *)
Theorem clicked_tab_is_the_active_one (trim toLower : string → string)
    (codeUnits : string → nat)
    (compare : option Role.t → RoleDraft.t → list PatchOperation.t)
    (ERROR404 : string) (st : PageState) (tab other : Z) :
  (tab = 1%Z ∧ other = 2%Z) ∨ (tab = 2%Z ∧ other = 1%Z) →
  let clicked :=
    dispatch trim toLower codeUnits compare ERROR404 (TabClicked tab) st in
  getActiveTabClass tab (currentTab (after clicked)) = "active"
  ∧ getActiveTabClass other (currentTab (after clicked)) = ""
  ∧ after clicked = after (setCurrentTab tab st)
  ∧ effects clicked = []
  ∧ ∀ current,
      ¬ (getActiveTabClass 1 current = "active"
         ∧ getActiveTabClass 2 current = "active").
Proof.
  intros Htab. cbv zeta. unfold dispatch. run_handler.
  unfold getActiveTabClass.
  split; [by rewrite Z.eqb_refl|].
  split; [destruct Htab as [[-> ->]|[-> ->]]; reflexivity|].
  split; [reflexivity|]. split; [reflexivity|].
  intros current [H1 H2].
  destruct (Z.eqb_spec 1 current) as [He|He]; [|done].
  subst current. done.
Qed.

(** X18.  The first load.  From the state of the first render, the mount
    asks for the role list only; when a list with a first role arrives, that
    role becomes current and its policy is asked for; when the policy
    arrives the page shows the role container with the roles, the current
    role and its policy, nothing loading and no modal open. *)
Theorem first_load_shows_the_first_role (trim toLower : string → string)
    (codeUnits : string → nat)
    (compare : option Role.t → RoleDraft.t → list PatchOperation.t)
    (ERROR404 : string) (role : Role.t) (rest : list Role.t)
    (policy : Policy.t) :
  let mounted := dispatch trim toLower codeUnits compare ERROR404 Mounted initialState in
  let flow :=
    run trim toLower codeUnits compare ERROR404
      [Mounted; RolesFetched (Resolved (role :: rest));
       PolicyFetched (Resolved (Some policy))] initialState in
  effects mounted = [Call (GetRoles ["policy"; "users"])]
  ∧ pageBody (after mounted) = Loader
  ∧ effects flow
    = [Call (GetRoles ["policy"; "users"]);
       Call (GetPolicy (EntityReference.id <$> Role.policy role)
               policyFields)]
  ∧ roles (after flow) = role :: rest
  ∧ currentRole (after flow) = Some role
  ∧ currentPolicy (after flow) = Some policy
  ∧ isLoading (after flow) = false
  ∧ isLoadingPolicy (after flow) = false
  ∧ pageBody (after flow) = RoleContainer true
  ∧ dialogs (after flow) = [].
Proof.
  cbv zeta. cbn [run]. unfold dispatch, is_resolved. run_handler.
  cbn [initialState currentRole].
  rewrite (bool_decide_eq_true_2 (is_Some (Some role))) by eauto.
  rewrite orb_true_r. run_handler. repeat split.
Qed.

(** X19.  When the role list that arrives is empty, no role is current, no
    policy is asked for and the page shows the 'No Roles Added.'
    placeholder; the link of the placeholder then opens the add-role form,
    with no error state. *)
Theorem empty_role_list_offers_to_add_a_role (trim toLower : string → string)
    (codeUnits : string → nat)
    (compare : option Role.t → RoleDraft.t → list PatchOperation.t)
    (ERROR404 : string) :
  let loaded :=
    run trim toLower codeUnits compare ERROR404
      [Mounted; RolesFetched (Resolved [])] initialState in
  let opened :=
    dispatch trim toLower codeUnits compare ERROR404 AddRoleClicked (after loaded) in
  policyFetches (effects loaded) = []
  ∧ currentRole (after loaded) = None
  ∧ pageBody (after loaded) = RoleContainer false
  ∧ dialogs (after loaded) = []
  ∧ dialogs (after opened) = [AddRoleForm]
  ∧ errorData (after opened) = None.
Proof.
  cbv zeta. cbn [run]. unfold dispatch, is_resolved. run_handler.
  repeat split.
Qed.

(** ** The further properties on concrete data *)

(** Case analysis on membership in a list that is written out. *)
Ltac each_element H :=
  repeat (apply elem_of_cons in H as [->|H]);
  [..|by apply elem_of_nil in H].

Lemma role_validation_passes_iff_witness :
  (is_Some (errorData loadedState) ∨ true = true)
  ∧ (result (onNewDataChange trimAscii toLowerAscii String.length loadedState
               (formRole "curator" "Curator") true loadedState) = ∅
     ↔ trimAscii "curator" ≠ ""
       ∧ (∀ item, item ∈ roles loadedState →
            toLowerAscii (Role.name item) ≠ toLowerAscii "curator")
       ∧ 1 ≤ String.length "curator" ≤ 128
       ∧ ∃ displayName,
           Some "Curator" = Some displayName
           ∧ trimAscii displayName ≠ ""
           ∧ 1 ≤ String.length displayName ≤ 128).
Proof.
  split; [by right|].
  apply (role_validation_passes_iff trimAscii toLowerAscii String.length loadedState
           loadedState (formRole "curator" "Curator") true).
  by right.
Defined.

Lemma name_size_bound_witness :
  (is_Some (errorData loadedState) ∨ true = true)
  ∧ trimAscii (nameOfLength 129) ≠ ""
  ∧ (∀ item, item ∈ roles loadedState →
       toLowerAscii (Role.name item) ≠ toLowerAscii (nameOfLength 129))
  ∧ result (onNewDataChange trimAscii toLowerAscii String.length loadedState
              (formRole (nameOfLength 129) "Long") true loadedState)
      !! "name"
    = if decide (1 ≤ String.length (nameOfLength 129) ≤ 128) then None
      else Some "Name size must be between 1 and 128".
Proof.
  assert (trimAscii (nameOfLength 129) ≠ "") as Htrim
    by (vm_compute; discriminate).
  assert (∀ item, item ∈ roles loadedState →
            toLowerAscii (Role.name item)
            ≠ toLowerAscii (nameOfLength 129)) as Hdup.
  { intros item Hin. cbn [roles loadedState] in Hin.
    each_element Hin; vm_compute; discriminate. }
  split; [by right|]. split; [exact Htrim|]. split; [exact Hdup|].
  apply (name_size_bound trimAscii toLowerAscii String.length loadedState loadedState
           (formRole (nameOfLength 129) "Long") true);
    [by right|exact Htrim|exact Hdup].
Defined.

Example name_of_128_passes :
  result (onNewDataChange trimAscii toLowerAscii String.length loadedState
            (formRole (nameOfLength 128) "Long") true loadedState) = ∅.
Proof. vm_compute. reflexivity. Qed.

Example name_of_129_fails :
  result (onNewDataChange trimAscii toLowerAscii String.length loadedState
            (formRole (nameOfLength 129) "Long") true loadedState)
  = {[ "name" := "Name size must be between 1 and 128" ]}.
Proof. vm_compute. reflexivity. Qed.

Lemma display_name_is_judged_alone_witness :
  (is_Some (errorData loadedState) ∨ true = true)
  ∧ let errData :=
      result (onNewDataChange trimAscii toLowerAscii String.length loadedState
                (formRole "admin" "  ") true loadedState) in
    (errData !! "displayName" = None
     ↔ ∃ displayName,
         Some "  " = Some displayName
         ∧ trimAscii displayName ≠ ""
         ∧ 1 ≤ String.length displayName ≤ 128)
    ∧ (Some "  " = None
       ∨ (∃ displayName, Some "  " = Some displayName
                         ∧ trimAscii displayName = "") →
       errData !! "displayName" = Some "Display name is required").
Proof.
  split; [by right|].
  apply (display_name_is_judged_alone trimAscii toLowerAscii String.length loadedState
           loadedState (formRole "admin" "  ") true).
  by right.
Defined.

Lemma recorded_error_state_makes_validation_live_witness :
  is_Some (errorData savedState)
  ∧ let onRole :=
      onNewDataChange trimAscii toLowerAscii String.length savedState (formRole "" "X")
        false savedState in
    let onRule :=
      validateRuleData savedState (formRule "" true) false savedState in
    onRole
      = onNewDataChange trimAscii toLowerAscii String.length savedState (formRole "" "X")
          true savedState
    ∧ onRule = validateRuleData savedState (formRule "" true) true savedState
    ∧ after onRole = after (setErrorData (Some (result onRole)) savedState)
    ∧ after onRule = after (setErrorData (Some (result onRule)) savedState)
    ∧ effects onRole = [] ∧ effects onRule = [].
Proof.
  assert (is_Some (errorData savedState)) as Hsome by (by eexists).
  split; [exact Hsome|].
  apply (recorded_error_state_makes_validation_live trimAscii toLowerAscii String.length
           savedState savedState (formRole "" "X") (formRule "" true)).
  exact Hsome.
Defined.

Example rule_without_operation_is_not_submitted :
  let created := createRule loadedState (formRule "" true) loadedState in
  effects created = []
  ∧ errorData (after created)
    = Some {[ "operation" := "Operation is required." ]}.
Proof. vm_compute. split; reflexivity. Qed.

Lemma rule_creation_appends_one_rule_witness :
  currentPolicy loadedState = Some adminPolicy
  ∧ Rule.operation (formRule "UpdateLineage" false) = Some "UpdateLineage"
  ∧ "UpdateLineage" ≠ ""
  ∧ let newRule :=
      createdRule adminPolicy (currentRole loadedState)
        (formRule "UpdateLineage" false) in
    effects (createRule loadedState (formRule "UpdateLineage" false)
               loadedState)
      = [Call (UpdatePolicy
                 (replacement adminPolicy
                    (Policy.rules adminPolicy ++ [newRule])))]
    ∧ Rule.name newRule = Policy.name adminPolicy +:+ "-" +:+ "UpdateLineage"
    ∧ Rule.operation newRule = Some "UpdateLineage"
    ∧ Rule.allow newRule = Rule.allow (formRule "UpdateLineage" false)
    ∧ Rule.enabled newRule = Rule.enabled (formRule "UpdateLineage" false)
    ∧ Rule.userRoleAttr newRule = Role.name <$> currentRole loadedState.
Proof.
  split; [reflexivity|]. split; [reflexivity|]. split; [discriminate|].
  apply (rule_creation_appends_one_rule loadedState loadedState
           (formRule "UpdateLineage" false) adminPolicy "UpdateLineage");
    [reflexivity|reflexivity|discriminate].
Defined.

Example created_rule :
  createdRule adminPolicy (currentRole loadedState)
    (formRule "UpdateLineage" false)
  = Rule.mk "admin-policy-UpdateLineage" (Some "UpdateLineage") (Some false)
      (Some true) (Some "admin").
Proof. reflexivity. Qed.

Lemma created_rule_can_be_deleted_again_witness :
  let later :=
    after (setCurrentPolicy
             (Some (Policy.mk "admin-policy" "AccessControl"
                      (Policy.rules adminPolicy
                       ++ [createdRule adminPolicy (currentRole loadedState)
                             (formRule "UpdateLineage" false)])))
             loadedState) in
  currentPolicy loadedState = Some adminPolicy
  ∧ truthy_string (Rule.operation (formRule "UpdateLineage" false)) = true
  ∧ (∀ rule, rule ∈ Policy.rules adminPolicy →
       Rule.operation rule
       ≠ Rule.operation (formRule "UpdateLineage" false))
  ∧ effects (createRule loadedState (formRule "UpdateLineage" false)
               loadedState)
    = [Call (UpdatePolicy
               (replacement adminPolicy
                  (Policy.rules adminPolicy
                   ++ [createdRule adminPolicy (currentRole loadedState)
                         (formRule "UpdateLineage" false)])))]
  ∧ effects (deleteRule later
               (createdRule adminPolicy (currentRole loadedState)
                  (formRule "UpdateLineage" false)) later)
    = [Call (UpdatePolicy
               (replacement adminPolicy (Policy.rules adminPolicy)))].
Proof.
  cbv zeta.
  assert (∀ rule, rule ∈ Policy.rules adminPolicy →
            Rule.operation rule
            ≠ Rule.operation (formRule "UpdateLineage" false)) as Hfresh.
  { intros rule Hin. cbn [Policy.rules adminPolicy] in Hin.
    each_element Hin; discriminate. }
  split; [reflexivity|]. split; [reflexivity|]. split; [exact Hfresh|].
  apply (created_rule_can_be_deleted_again loadedState _ loadedState _
           (formRule "UpdateLineage" false) adminPolicy);
    [reflexivity|reflexivity|exact Hfresh|reflexivity].
Defined.

Lemma toggling_twice_restores_the_rules_witness :
  let later :=
    after (setCurrentPolicy
             (Some (Policy.mk "admin-policy" "AccessControl"
                      [updateTags; toggled updateOwner; denyTags]))
             loadedState) in
  currentPolicy loadedState = Some adminPolicy
  ∧ Rule.enabled updateOwner = Some false
  ∧ (∀ rule, rule ∈ Policy.rules adminPolicy →
       Rule.name rule = Rule.name updateOwner → rule = updateOwner)
  ∧ ∃ rs,
      effects (onRuleUpdate loadedState (toggled updateOwner) loadedState)
        = [Call (UpdatePolicy (replacement adminPolicy rs))]
      ∧ toggled (toggled updateOwner) = updateOwner
      ∧ (currentPolicy later
         = Some (Policy.mk (Policy.name adminPolicy)
                   (Policy.policyType adminPolicy) rs) →
         effects (onRuleUpdate later (toggled (toggled updateOwner)) later)
         = [Call (UpdatePolicy
                    (replacement adminPolicy (Policy.rules adminPolicy)))]).
Proof.
  cbv zeta.
  assert (∀ rule, rule ∈ Policy.rules adminPolicy →
            Rule.name rule = Rule.name updateOwner → rule = updateOwner)
    as Hunique.
  { intros rule Hin. cbn [Policy.rules adminPolicy] in Hin.
    each_element Hin; intros Hname; first [reflexivity|discriminate Hname]. }
  split; [reflexivity|]. split; [reflexivity|]. split; [exact Hunique|].
  apply (toggling_twice_restores_the_rules loadedState _ loadedState _
           updateOwner adminPolicy false);
    [reflexivity|reflexivity|exact Hunique].
Defined.

Example switch_and_switch_back :
  let later :=
    after (setCurrentPolicy
             (Some (Policy.mk "admin-policy" "AccessControl"
                      [updateTags; toggled updateOwner; denyTags]))
             loadedState) in
  calls (effects (onRuleUpdate loadedState (toggled updateOwner) loadedState))
    = [UpdatePolicy (replacement adminPolicy
                       [updateTags; toggled updateOwner; denyTags])]
  ∧ calls (effects (onRuleUpdate later (toggled (toggled updateOwner)) later))
    = [UpdatePolicy (replacement adminPolicy
                       [updateTags; updateOwner; denyTags])].
Proof. vm_compute. split; reflexivity. Qed.

Lemma rule_update_keeps_the_names_witness :
  currentPolicy loadedState = Some adminPolicy
  ∧ ∃ rs,
      effects (onRuleUpdate loadedState
                 (Rule.mk "deny-tags" (Some "UpdateTags") (Some true)
                    (Some true) (Some "admin")) loadedState)
        = [Call (UpdatePolicy (replacement adminPolicy rs))]
      ∧ map Rule.name rs = map Rule.name (Policy.rules adminPolicy)
      ∧ ((∀ rule, rule ∈ Policy.rules adminPolicy →
            Rule.name rule ≠ "deny-tags") →
         rs = Policy.rules adminPolicy).
Proof.
  split; [reflexivity|].
  apply (rule_update_keeps_the_names loadedState loadedState
           (Rule.mk "deny-tags" (Some "UpdateTags") (Some true) (Some true)
              (Some "admin")) adminPolicy).
  reflexivity.
Defined.

Lemma deletion_is_idempotent_witness :
  let later :=
    after (setCurrentPolicy
             (Some (Policy.mk "admin-policy" "AccessControl" [updateOwner]))
             loadedState) in
  currentPolicy loadedState = Some adminPolicy
  ∧ ∃ rs,
      effects (deleteRule loadedState updateTags loadedState)
        = [Call (UpdatePolicy (replacement adminPolicy rs))]
      ∧ length rs ≤ length (Policy.rules adminPolicy)
      ∧ ((∀ rule, rule ∈ Policy.rules adminPolicy →
            Rule.operation rule ≠ Rule.operation updateTags) →
         rs = Policy.rules adminPolicy)
      ∧ (currentPolicy later
         = Some (Policy.mk (Policy.name adminPolicy)
                   (Policy.policyType adminPolicy) rs) →
         effects (deleteRule later updateTags later)
         = [Call (UpdatePolicy (replacement adminPolicy rs))]).
Proof.
  cbv zeta. split; [reflexivity|].
  apply (deletion_is_idempotent loadedState _ loadedState _ updateTags
           adminPolicy).
  reflexivity.
Defined.

Lemma rule_mutations_without_policy_witness :
  currentPolicy initialState = None
  ∧ effects (onRuleUpdate initialState (toggled updateOwner) initialState)
    = [Call (UpdatePolicy (PolicyUpdate.mk None None None))]
  ∧ effects (deleteRule initialState (toggled updateOwner) initialState)
    = [Call (UpdatePolicy (PolicyUpdate.mk None None None))]
  ∧ effects (createRule initialState (toggled updateOwner) initialState) = [].
Proof.
  split; [reflexivity|].
  apply (rule_mutations_without_policy initialState initialState
           (toggled updateOwner)).
  reflexivity.
Defined.

Lemma error_page_is_final_witness :
  notFound ≠ ""
  ∧ let final :=
      after (runAscii
               (RolesFetched (Rejected networkError)
                :: [AddRoleClicked; RoleClicked stewardRole;
                    PolicyFetched (Resolved (Some stewardPolicy));
                    RolesFetched (Resolved [adminRole])])
               loadedState) in
    error final ≠ ""
    ∧ pageBody final = ErrorPlaceHolder
    ∧ dialogs final = [].
Proof.
  split; [discriminate|].
  apply (error_page_is_final trimAscii toLowerAscii String.length noPatch notFound
           loadedState networkError).
  discriminate.
Defined.

Lemma server_data_changes_only_with_a_response_witness :
  let evs :=
    [RuleSwitchClicked updateOwner;
     PolicyUpdatedOnEdit (toggled updateOwner) (Rejected networkError);
     RuleDeleteClicked updateTags; RuleDeleteConfirmed;
     RoleFormSaved (formRole "curator" "Curator");
     RoleCreated (Resolved (Some curatorRole));
     RoleClicked stewardRole; PolicyFetched (Rejected networkError)] in
  Forall (λ ev, brings_server_data ev = false) evs
  ∧ roles (after (runAscii evs loadedState)) = roles loadedState
  ∧ currentPolicy (after (runAscii evs loadedState))
    = currentPolicy loadedState.
Proof.
  cbv zeta.
  assert (Forall (λ ev, brings_server_data ev = false)
            [RuleSwitchClicked updateOwner;
             PolicyUpdatedOnEdit (toggled updateOwner) (Rejected networkError);
             RuleDeleteClicked updateTags; RuleDeleteConfirmed;
             RoleFormSaved (formRole "curator" "Curator");
             RoleCreated (Resolved (Some curatorRole));
             RoleClicked stewardRole; PolicyFetched (Rejected networkError)])
    as Hevs by (repeat constructor).
  split; [exact Hevs|].
  apply (server_data_changes_only_with_a_response trimAscii toLowerAscii String.length
           noPatch notFound _ loadedState).
  exact Hevs.
Defined.

Example creation_selects_the_first_role :
  let flow :=
    runAscii
      [AddRoleClicked; RoleFormSaved (formRole "curator" "Curator");
       RoleCreated (Resolved (Some curatorRole));
       RolesFetched (Resolved [adminRole; curatorRole; stewardRole])]
      loadedState in
  calls (effects flow)
    = [CreateRole (Some "") "curator" (Some "Curator");
       GetRoles ["policy"; "users"];
       GetPolicy (Some "p-admin") policyFields]
  ∧ currentRole (after flow) = Some adminRole
  ∧ isAddingRole (after flow) = false.
Proof. vm_compute. repeat split; reflexivity. Qed.

Lemma description_update_refetches_the_role_witness :
  currentRole loadedState ≫= Role.description ≠ Some "All powers"
  ∧ let flow :=
      runAscii
        [DescriptionSaved "All powers";
         RoleUpdated loadedState (Resolved (Some adminRole));
         RoleFetched loadedState (Resolved (Some adminRole))] loadedState in
    effects flow
      = [Call (UpdateRole (currentRole loadedState ≫= Role.id)
                 (noPatch (currentRole loadedState)
                    (RoleDraft.mk (currentRole loadedState) "All powers")));
         Call (GetRoleByName (Role.name adminRole) ["users"; "policy"])]
        ++ (if decide (roles loadedState = [])
            then [Call (GetRoles ["policy"; "users"])] else [])
        ++ [Call (GetPolicy (EntityReference.id <$> Role.policy adminRole)
                    policyFields)]
    ∧ currentRole (after flow) = Some adminRole
    ∧ isEditable (after flow) = false
    ∧ isLoading (after flow) = false.
Proof.
  split; [discriminate|].
  apply (description_update_refetches_the_role trimAscii toLowerAscii String.length noPatch
           notFound loadedState "All powers" adminRole adminRole).
  discriminate.
Defined.

Lemma clicked_tab_is_the_active_one_witness :
  ((2 = 1 ∧ 1 = 2) ∨ (2 = 2 ∧ 1 = 1))%Z
  ∧ let clicked := dispatchAscii (TabClicked 2) loadedState in
    getActiveTabClass 2 (currentTab (after clicked)) = "active"
    ∧ getActiveTabClass 1 (currentTab (after clicked)) = ""
    ∧ after clicked = after (setCurrentTab 2 loadedState)
    ∧ effects clicked = []
    ∧ ∀ current,
        ¬ (getActiveTabClass 1 current = "active"
           ∧ getActiveTabClass 2 current = "active").
Proof.
  split; [by right|].
  apply (clicked_tab_is_the_active_one trimAscii toLowerAscii String.length noPatch
           notFound loadedState 2 1).
  by right.
Defined.
